(** * BlendAI: bounds, reference-plane placement and camera framing

    A shallow embedding of the bounding-box arithmetic of
    [src/BlendAI_Smart.py] ([SmartBlendAI._position_reference_plane],
    [SmartBlendAI.render_smart_preview]) and of [src/BlendAI_Ubuntu.py]
    ([BlendAISetup._position_reference_plane]).

    Coordinates are Python/Blender floats in the scripts.  They are embedded
    as exact rationals [Q]: comparisons ([min], [max]) are embedded exactly,
    arithmetic is embedded without rounding.  Equality of computed numbers
    is therefore [Qeq] ([==]); Leibniz equality is used where the code
    copies a value without computing on it.

    The second half covers what surrounds that arithmetic: the keyword
    analysis of a prompt, the sword's part layout and modifier stack, the
    material settings, the fallback chain of [generate_model_from_text],
    the reference-image setup of both scripts and [generate_and_process].
    Operations that live entirely in the host (builders, material node
    trees, import, render) are parameters: they return or raise. *)

From Stdlib Require Import QArith Qminmax Lqa List String Bool Lia.
Import ListNotations.
Local Open Scope Q_scope.

(** ** Python values: exceptions and results *)

(** The exceptions the modelled statements can raise: [min()]/[max()] on an
    empty iterable, an attribute access on [None], and a division by zero. *)
Inductive exn : Type :=
| ValueError
| AttributeError
| ZeroDivisionError.

Inductive result (A : Type) : Type :=
| Ok (a : A)
| Raise (e : exn).
Arguments Ok {A} a.
Arguments Raise {A} e.

(** ** mathutils.Vector (three components) and Matrix (4x4) *)

Record Vector : Type := mkVector { x : Q; y : Q; z : Q }.

(** Componentwise numeric equality of vectors. *)
Definition veq (u v : Vector) : Prop :=
  x u == x v /\ y u == y v /\ z u == z v.

(** [u + v] and [u - v] on vectors. *)
Definition vadd (u v : Vector) : Vector :=
  mkVector (x u + x v) (y u + y v) (z u + z v).
Definition vsub (u v : Vector) : Vector :=
  mkVector (x u - x v) (y u - y v) (z u - z v).

(** Division raises on a zero divisor, for floats and for vectors alike. *)
Definition py_div (a b : Q) : result Q :=
  if Qeq_bool b 0 then Raise ZeroDivisionError else Ok (a / b).
Definition vdiv (u : Vector) (k : Q) : result Vector :=
  if Qeq_bool k 0 then Raise ZeroDivisionError
  else Ok (mkVector (x u / k) (y u / k) (z u / k)).

(** Iterating a Vector yields its components in order ([max(model_size)]). *)
Definition components (v : Vector) : list Q := [x v; y v; z v].

Record Row4 : Type := mkRow4 { c0 : Q; c1 : Q; c2 : Q; c3 : Q }.
Record Matrix : Type := mkMatrix { r0 : Row4; r1 : Row4; r2 : Row4; r3 : Row4 }.

Definition row_dot (r : Row4) (v : Vector) : Q :=
  c0 r * x v + c1 r * y v + c2 r * z v + c3 r * 1.

(** [matrix @ vector] for a 4x4 matrix and a 3D vector: the vector is
    extended with a homogeneous 1 and the first three rows are kept. *)
Definition matmul (m : Matrix) (v : Vector) : Vector :=
  mkVector (row_dot (r0 m) v) (row_dot (r1 m) v) (row_dot (r2 m) v).

Definition identity_matrix : Matrix :=
  mkMatrix (mkRow4 1 0 0 0) (mkRow4 0 1 0 0) (mkRow4 0 0 1 0) (mkRow4 0 0 0 1).

(** ** Python's [min] and [max] builtins *)

Definition Qltb (a b : Q) : bool :=
  match a ?= b with Lt => true | _ => false end.

(** [min] keeps the first smallest item: an item replaces the current one
    only when it is strictly smaller. *)
Definition min_from (m : Q) (items : list Q) : Q :=
  fold_left (fun cur item => if Qltb item cur then item else cur) items m.

(** [max] keeps the first largest item. *)
Definition max_from (m : Q) (items : list Q) : Q :=
  fold_left (fun cur item => if Qltb cur item then item else cur) items m.

(** Both raise [ValueError] when the iterable is empty. *)
Definition py_min (items : list Q) : result Q :=
  match items with
  | [] => Raise ValueError
  | i :: rest => Ok (min_from i rest)
  end.

Definition py_max (items : list Q) : result Q :=
  match items with
  | [] => Raise ValueError
  | i :: rest => Ok (max_from i rest)
  end.

(** ** Scene objects *)

Record MeshVertex : Type := mkMeshVertex { co : Vector }.

(** [obj.data]: only the vertex list is read by the modelled code. *)
Record ObjectData : Type := mkObjectData { vertices : list MeshVertex }.

Record Object : Type := mkObject {
  name : string;
  type : string;
  data : ObjectData;
  matrix_world : Matrix;
  location : Vector;
  rotation_euler : Vector;
  scale : Vector
}.

Definition is_mesh (obj : Object) : bool := String.eqb (type obj) "MESH".

(** Field updates on an object, as attribute assignments perform them. *)
Definition set_location (obj : Object) (l : Vector) : Object :=
  mkObject (name obj) (type obj) (data obj) (matrix_world obj) l
           (rotation_euler obj) (scale obj).
Definition set_location_x (obj : Object) (v : Q) : Object :=
  set_location obj (mkVector v (y (location obj)) (z (location obj))).
Definition set_location_z (obj : Object) (v : Q) : Object :=
  set_location obj (mkVector (x (location obj)) (y (location obj)) v).
Definition set_scale (obj : Object) (s : Vector) : Object :=
  mkObject (name obj) (type obj) (data obj) (matrix_world obj) (location obj)
           (rotation_euler obj) s.
Definition set_rotation_euler (obj : Object) (r : Vector) : Object :=
  mkObject (name obj) (type obj) (data obj) (matrix_world obj) (location obj)
           r (scale obj).

(** ** Gathering the world coordinates of the mesh vertices

    <<
    all_coords = []
    for obj in self.imported_objects:
        if obj.type == 'MESH':
            for vertex in obj.data.vertices:
                world_coord = obj.matrix_world @ vertex.co
                all_coords.append(world_coord)
    >>
    The same loop appears in all three methods. *)
Definition append_vertices (obj : Object) (acc : list Vector) : list Vector :=
  fold_left (fun acc vertex => acc ++ [matmul (matrix_world obj) (co vertex)])
            (vertices (data obj)) acc.

Definition all_coords (imported_objects : list Object) : list Vector :=
  fold_left (fun acc obj => if is_mesh obj then append_vertices obj acc else acc)
            imported_objects [].

(** ** The bounds computed from [all_coords]

    <<
    min_coords = Vector((min(coord.x for coord in all_coords),
                         min(coord.y for coord in all_coords),
                         min(coord.z for coord in all_coords)))
    max_coords = Vector((max(coord.x for coord in all_coords), ...))
    >> *)
Definition bind_result {A B} (r : result A) (k : A -> result B) : result B :=
  match r with
  | Ok a => k a
  | Raise e => Raise e
  end.

Definition min_coords (coords : list Vector) : result Vector :=
  bind_result (py_min (map x coords)) (fun mx =>
  bind_result (py_min (map y coords)) (fun my =>
  bind_result (py_min (map z coords)) (fun mz =>
  Ok (mkVector mx my mz)))).

Definition max_coords (coords : list Vector) : result Vector :=
  bind_result (py_max (map x coords)) (fun mx =>
  bind_result (py_max (map y coords)) (fun my =>
  bind_result (py_max (map z coords)) (fun mz =>
  Ok (mkVector mx my mz)))).

(** ** Script state and the monad of a method body

    [self.imported_objects], [self.reference_plane], the entry ['Camera'] of
    [bpy.data.objects], and the records sent to [logger].  The reference
    plane and the camera are objects of their own: the scripts create the
    plane after the model objects, and none of the model objects is named
    ['Camera']. *)
Inductive level : Type := INFO | ERROR.

Record State : Type := mkState {
  imported_objects : list Object;
  reference_plane : option Object;
  camera : option Object;
  log : list (level * string)
}.

(** A method body: it updates the state and returns or raises.  Updates made
    before a raise persist, as in Python. *)
Definition M (A : Type) : Type := State -> State * result A.

Definition ret {A} (a : A) : M A := fun s => (s, Ok a).
Definition bind {A B} (m : M A) (k : A -> M B) : M B :=
  fun s => match m s with
           | (s', Ok a) => k a s'
           | (s', Raise e) => (s', Raise e)
           end.
Definition lift {A} (r : result A) : M A := fun s => (s, r).

(** [try: body  except Exception as e: handler] *)
Definition try_except {A} (body : M A) (handler : exn -> M A) : M A :=
  fun s => match body s with
           | (s', Ok a) => (s', Ok a)
           | (s', Raise e) => handler e s'
           end.

Notation "v <- m ;; k" := (bind m (fun v => k))
  (at level 61, m at next level, right associativity).
Notation "m ;;; k" := (bind m (fun _ => k))
  (at level 61, right associativity).

Definition logger_info (msg : string) : M unit :=
  fun s => (mkState (imported_objects s) (reference_plane s) (camera s)
                    (log s ++ [(INFO, msg)]), Ok tt).
Definition logger_error (msg : string) : M unit :=
  fun s => (mkState (imported_objects s) (reference_plane s) (camera s)
                    (log s ++ [(ERROR, msg)]), Ok tt).

(** An assignment to an attribute of [self.reference_plane]; on [None] the
    attribute access raises. *)
Definition update_reference_plane (f : Object -> Object) : M unit :=
  fun s => match reference_plane s with
           | Some plane =>
               (mkState (imported_objects s) (Some (f plane)) (camera s) (log s),
                Ok tt)
           | None => (s, Raise AttributeError)
           end.

Definition set_camera (cam : Object) : M unit :=
  fun s => (mkState (imported_objects s) (reference_plane s) (Some cam) (log s),
            Ok tt).

(** Python truthiness of a list and of an optional object. *)
Definition truthy_list {A} (l : list A) : bool :=
  match l with [] => false | _ :: _ => true end.
Definition truthy_opt {A} (o : option A) : bool :=
  match o with None => false | Some _ => true end.

(** ** BlendAI_Smart.py *)
Module Smart.

(** The local variables of [_position_reference_plane]. *)
Definition model_center (min_c max_c : Vector) : result Vector :=
  vdiv (vadd min_c max_c) 2.
Definition model_size (min_c max_c : Vector) : Vector :=
  vsub max_c min_c.
Definition offset_distance (sz : Vector) : result Q :=
  bind_result (py_max (components sz)) (fun m => Ok (m * 1.5)).
Definition scale_factor (sz : Vector) : result Q :=
  bind_result (py_max (components sz)) (fun m => Ok (m * 0.8)).

(** [SmartBlendAI._position_reference_plane] (lines 361-395). *)
Definition _position_reference_plane : M unit := fun self =>
  if negb (truthy_opt (reference_plane self))
     || negb (truthy_list (imported_objects self))
  then ret tt self
  else
    try_except
      (let coords := all_coords (imported_objects self) in
       if truthy_list coords then
         min_c <- lift (min_coords coords) ;;
         max_c <- lift (max_coords coords) ;;
         c <- lift (model_center min_c max_c) ;;
         let sz := model_size min_c max_c in
         d <- lift (offset_distance sz) ;;
         update_reference_plane (fun p => set_location_x p (x c + d)) ;;;
         update_reference_plane (fun p => set_location_z p (z c)) ;;;
         f <- lift (scale_factor sz) ;;
         update_reference_plane (fun p => set_scale p (mkVector f f 1)) ;;;
         logger_info "Reference plane positioned at"
       else ret tt)
      (fun e => logger_error "Failed to position reference plane")
      self.

(** The local variables of [render_smart_preview]. *)
Definition center (min_c max_c : Vector) : result Vector :=
  vdiv (vadd min_c max_c) 2.
Definition size (min_c max_c : Vector) : Vector :=
  vsub max_c min_c.
Definition distance (sz : Vector) : result Q :=
  bind_result (py_max (components sz)) (fun m => Ok (m * 2)).

(** [bpy.ops.object.camera_add()] with its defaults: a new object of type
    ['CAMERA'] at the origin, which becomes the active object. *)
Definition camera_add : Object :=
  mkObject "Camera" "CAMERA" (mkObjectData []) identity_matrix
           (mkVector 0 0 0) (mkVector 0 0 0) (mkVector 1 1 1).

Section Host.

(** [direction.to_track_quat('-Z', 'Y').to_euler()]: the host library's
    conversion of a direction into Euler angles. *)
Variable to_track_quat_to_euler : Vector -> Vector.

(** Everything [render_smart_preview] does after the camera is placed:
    light, render settings and the render call, all in the host. *)
Variable light_and_render : M unit.

(** The camera block of [SmartBlendAI.render_smart_preview]
    (lines 668-701, [if self.imported_objects: ...]). *)
Definition render_smart_preview_camera : M unit := fun self =>
  if truthy_list (imported_objects self) then
    (let coords := all_coords (imported_objects self) in
     if truthy_list coords then
       min_c <- lift (min_coords coords) ;;
       max_c <- lift (max_coords coords) ;;
       c <- lift (center min_c max_c) ;;
       let sz := size min_c max_c in
       d <- lift (distance sz) ;;
       fun s =>
         let cam := match camera s with
                    | Some cam => cam
                    | None => camera_add
                    end in
         let cam := set_location cam (vadd c (mkVector d (- d) (d * 0.5))) in
         let direction := vsub c (location cam) in
         set_camera (set_rotation_euler cam (to_track_quat_to_euler direction)) s
     else ret tt) self
  else ret tt self.

(** [SmartBlendAI.render_smart_preview] (lines 665-725). *)
Definition render_smart_preview : M bool :=
  try_except
    (render_smart_preview_camera ;;;
     light_and_render ;;;
     logger_info "Smart preview rendered" ;;;
     ret true)
    (fun e => logger_error "Smart preview render failed" ;;; ret false).

End Host.
End Smart.

(** ** BlendAI_Ubuntu.py *)
Module Ubuntu.

Definition model_width (min_c max_c : Vector) : Q := x max_c - x min_c.

(** [BlendAISetup._position_reference_plane] (lines 162-188).  No
    [try]/[except] here. *)
Definition _position_reference_plane : M unit := fun self =>
  if negb (truthy_list (imported_objects self))
     || negb (truthy_opt (reference_plane self))
  then ret tt self
  else
    (let coords := all_coords (imported_objects self) in
     if truthy_list coords then
       min_c <- lift (min_coords coords) ;;
       max_c <- lift (max_coords coords) ;;
       let w := model_width min_c max_c in
       update_reference_plane
         (fun p => set_location_x p (x max_c + w * 0.5)) ;;;
       zc <- lift (py_div (z min_c + z max_c) 2) ;;
       update_reference_plane (fun p => set_location_z p zc)
     else ret tt) self.

End Ubuntu.

(** ** Scenes built from a list of points *)

Definition mesh_of (pts : list Vector) : Object :=
  mkObject "Generated" "MESH" (mkObjectData (map mkMeshVertex pts))
           identity_matrix (mkVector 0 0 0) (mkVector 0 0 0) (mkVector 1 1 1).

Definition plane0 : Object :=
  mkObject "Reference_Image" "MESH" (mkObjectData []) identity_matrix
           (mkVector 5 0 0) (mkVector 0 0 0) (mkVector 1 1 1).

Definition scene_of (pts : list Vector) : State :=
  mkState [mesh_of pts] (Some plane0) None [].

(** The spec's scenario: (0,0,0), (2,0,0), (0,0,4). *)
Definition scenario : list Vector :=
  [mkVector 0 0 0; mkVector 2 0 0; mkVector 0 0 4].

(** ** Vocabulary of the statements *)

(** [m] is a least (greatest) item of [l]: it occurs in [l] and bounds it. *)
Definition is_minimum (m : Q) (l : list Q) : Prop :=
  In m l /\ forall a, In a l -> m <= a.
Definition is_maximum (m : Q) (l : list Q) : Prop :=
  In m l /\ forall a, In a l -> a <= m.

(** The largest component of a vector, by [Qmax]. *)
Definition max_extent (v : Vector) : Q := Qmax (Qmax (x v) (y v)) (z v).

(** The midpoint of two corners. *)
Definition midpoint (lo hi : Vector) : Vector :=
  mkVector ((x lo + x hi) / 2) ((y lo + y hi) / 2) ((z lo + z hi) / 2).

(** The world coordinates of one object's vertices. *)
Definition world_coords (obj : Object) : list Vector :=
  map (fun vertex => matmul (matrix_world obj) (co vertex)) (vertices (data obj)).

(** Everything of an object but its X and Z location and its scale. *)
Definition same_but_x_z_scale (p q : Object) : Prop :=
  name q = name p /\ type q = type p /\ data q = data p /\
  matrix_world q = matrix_world p /\
  y (location q) = y (location p) /\
  rotation_euler q = rotation_euler p.

(** Convex combinations. *)
Definition vscale (k : Q) (v : Vector) : Vector :=
  mkVector (k * x v) (k * y v) (k * z v).

Fixpoint weighted_sum (ws : list Q) (ps : list Vector) : Vector :=
  match ws, ps with
  | w :: ws', p :: ps' => vadd (vscale w p) (weighted_sum ws' ps')
  | _, _ => mkVector 0 0 0
  end.

Definition Qsum (ws : list Q) : Q := fold_right Qplus 0 ws.

(** [p] is a convex combination of the points [ps]. *)
Definition in_convex_hull (p : Vector) (ps : list Vector) : Prop :=
  exists ws : list Q,
    List.length ws = List.length ps /\
    Forall (fun w => 0 <= w) ws /\
    Qsum ws == 1 /\
    veq (weighted_sum ws ps) p.

(** Three unit points, for the convex hull. *)
Definition corners : list Vector :=
  [mkVector 1 0 0; mkVector 0 1 0; mkVector 0 0 1].

(** A second scene with the scenario's box: one more object and an interior
    point, a camera already there, another plane, a log record. *)
Definition scene_other : State :=
  mkState
    [mesh_of [mkVector 0 0 4; mkVector 1 0 1];
     mkObject "Lamp" "LIGHT" (mkObjectData [mkMeshVertex (mkVector 9 9 9)])
              identity_matrix (mkVector 0 0 0) (mkVector 0 0 0) (mkVector 1 1 1);
     mesh_of [mkVector 2 0 0; mkVector 0 0 0]]
    (Some (mkObject "Reference_Plane" "MESH" (mkObjectData []) identity_matrix
                    (mkVector 0 9 0) (mkVector 0 0 0) (mkVector 2 2 2)))
    (Some (mkObject "Camera" "CAMERA" (mkObjectData []) identity_matrix
                    (mkVector 7 7 7) (mkVector 1 1 1) (mkVector 1 1 1)))
    [(ERROR, "earlier"%string)].

(** A camera and a light, each carrying vertex-like data, and no mesh. *)
Definition no_mesh_objects : list Object :=
  [mkObject "Camera" "CAMERA" (mkObjectData [mkMeshVertex (mkVector 1 2 3)])
            identity_matrix (mkVector 0 0 0) (mkVector 0 0 0) (mkVector 1 1 1);
   mkObject "Light" "LIGHT" (mkObjectData [mkMeshVertex (mkVector 4 5 6)])
            identity_matrix (mkVector 0 0 0) (mkVector 0 0 0) (mkVector 1 1 1)].

(** [p] lies in the box of corners [lo] and [hi]. *)
Definition in_box (lo hi p : Vector) : Prop :=
  x lo <= x p <= x hi /\ y lo <= y p <= y hi /\ z lo <= z p <= z hi.


(** ** Python strings

    [word in text] is the substring test; [any(word in text for word in
    words)] tries the words in order. *)
Fixpoint contains (word text : string) : bool :=
  if String.prefix word text then true
  else match text with
       | EmptyString => false
       | String _ rest => contains word rest
       end.

Definition any_in (words : list string) (text : string) : bool :=
  existsb (fun word => contains word text) words.

(** [str.lower] on ASCII text, to run the keyword functions on examples. *)
Definition lower_char (c : Ascii.ascii) : Ascii.ascii :=
  let n := Ascii.nat_of_ascii c in
  if Nat.leb 65 n && Nat.leb n 90 then Ascii.ascii_of_nat (n + 32)%nat else c.

Fixpoint ascii_lower (s : string) : string :=
  match s with
  | EmptyString => EmptyString
  | String c rest => String (lower_char c) (ascii_lower rest)
  end.

(** ** The script object beyond the scene

    [self.reference_image_path] and the records sent to [logger.warning],
    beside the state the placement methods work on.  A method of the whole
    object runs in [MS]; a method of the placement part is lifted. *)
Record Self : Type := mkSelf {
  state : State;
  reference_image_path : option string;
  warnings : list string
}.

Definition MS (A : Type) : Type := Self -> Self * result A.

Definition retS {A} (a : A) : MS A := fun self => (self, Ok a).
Definition raiseS {A} (e : exn) : MS A := fun self => (self, Raise e).
Definition bindS {A B} (m : MS A) (k : A -> MS B) : MS B :=
  fun self => match m self with
              | (self', Ok a) => k a self'
              | (self', Raise e) => (self', Raise e)
              end.
Definition try_exceptS {A} (body : MS A) (handler : exn -> MS A) : MS A :=
  fun self => match body self with
              | (self', Ok a) => (self', Ok a)
              | (self', Raise e) => handler e self'
              end.
Definition liftM {A} (m : M A) : MS A :=
  fun self => match m (state self) with
              | (s', r) => (mkSelf s' (reference_image_path self) (warnings self), r)
              end.
Definition liftR {A} (r : result A) : MS A := fun self => (self, r).

Notation "v <~ m ;; k" := (bindS m (fun v => k))
  (at level 61, m at next level, right associativity).
Notation "m ;;~ k" := (bindS m (fun _ => k))
  (at level 61, right associativity).

Definition logger_warning (msg : string) : MS unit :=
  fun self => (mkSelf (state self) (reference_image_path self)
                      (warnings self ++ [msg]), Ok tt).

Definition set_reference_image_path (path : string) : MS unit :=
  fun self => (mkSelf (state self) (Some path) (warnings self), Ok tt).
Definition set_reference_plane (plane : Object) : MS unit :=
  liftM (fun s => (mkState (imported_objects s) (Some plane) (camera s) (log s),
                   Ok tt)).
Definition set_imported_objects (objs : list Object) : MS unit :=
  liftM (fun s => (mkState objs (reference_plane s) (camera s) (log s), Ok tt)).

(** Truthiness of a string and of an optional string. *)
Definition truthy_str (s : string) : bool := negb (String.eqb s "").
Definition truthy_opt_str (o : option string) : bool :=
  match o with None => false | Some s => truthy_str s end.

Definition set_name (obj : Object) (n : string) : Object :=
  mkObject n (type obj) (data obj) (matrix_world obj) (location obj)
           (rotation_euler obj) (scale obj).

Definition translation_matrix (l : Vector) : Matrix :=
  mkMatrix (mkRow4 1 0 0 (x l)) (mkRow4 0 1 0 (y l)) (mkRow4 0 0 1 (z l))
           (mkRow4 0 0 0 1).

(** [bpy.ops.mesh.primitive_plane_add(size, location)]: a square mesh of
    the given side in the XY plane, placed at [location]; it becomes the
    active object. *)
Definition primitive_plane_add (size : Q) (l : Vector) : Object :=
  let h := size / 2 in
  mkObject "Plane" "MESH"
    (mkObjectData [mkMeshVertex (mkVector (- h) (- h) 0);
                   mkMeshVertex (mkVector h (- h) 0);
                   mkMeshVertex (mkVector (- h) h 0);
                   mkMeshVertex (mkVector h h 0)])
    (translation_matrix l) l (mkVector 0 0 0) (mkVector 1 1 1).

(** ** BlendAI_Smart.py: what is built from a prompt *)
Module SmartBlendAI.

(** The [analysis] dictionary of [_analyze_reference_image]: its four keys,
    and the three keys of its ['proportions']. *)
Module Analysis.
Record Proportions : Type := mkProportions { width : Q; height : Q; depth : Q }.
Record t : Type := mk {
  type : string;
  proportions : Proportions;
  style : string;
  features : list string
}.
End Analysis.

(** Assignments to the dictionary's keys. *)
Definition set_type (a : Analysis.t) (v : string) : Analysis.t :=
  Analysis.mk v (Analysis.proportions a) (Analysis.style a) (Analysis.features a).
Definition set_proportions (a : Analysis.t) (w h d : Q) : Analysis.t :=
  Analysis.mk (Analysis.type a) (Analysis.mkProportions w h d)
              (Analysis.style a) (Analysis.features a).
Definition set_style (a : Analysis.t) (v : string) : Analysis.t :=
  Analysis.mk (Analysis.type a) (Analysis.proportions a) v (Analysis.features a).
Definition set_features (a : Analysis.t) (v : list string) : Analysis.t :=
  Analysis.mk (Analysis.type a) (Analysis.proportions a) (Analysis.style a) v.

(** The local variable [analysis] of [_analyze_reference_image] (lines
    96-133) as it is returned, from [prompt_lower]. *)
Definition analysis (prompt_lower : string) : Analysis.t :=
  let analysis :=
    Analysis.mk "generic" (Analysis.mkProportions 1.0 1.0 1.0) "basic" [] in
  if any_in ["sword"; "blade"; "katana"; "dagger"; "greatsword"]%string prompt_lower then
    let analysis := set_type analysis "sword" in
    if contains "katana" prompt_lower then
      set_features
        (set_style (set_proportions analysis 0.08 0.05 2.5) "curved")
        ["curved_blade"; "long_handle"; "guard"]%string
    else if contains "dagger" prompt_lower then
      set_features
        (set_style (set_proportions analysis 0.12 0.06 0.8) "short")
        ["short_blade"; "small_guard"]%string
    else if contains "greatsword" prompt_lower then
      set_features
        (set_style (set_proportions analysis 0.15 0.08 3.5) "large")
        ["long_blade"; "large_guard"; "long_handle"]%string
    else
      set_features
        (set_style (set_proportions analysis 0.1 0.05 1.8) "standard")
        ["blade"; "guard"; "handle"]%string
  else if any_in ["human"; "character"; "warrior"; "mage"]%string prompt_lower then
    set_proportions (set_type analysis "character") 0.6 1.8 0.3
  else if any_in ["castle"; "building"; "tower"; "house"]%string prompt_lower then
    set_proportions (set_type analysis "building") 4.0 6.0 4.0
  else analysis.

(** The local variables of [_create_reference_guided_sword] (lines 154-223)
    that place the parts: the blade is a cube of size 2 at the origin scaled
    by the proportions, so it spans [-depth, depth] on Z. *)
Definition blade_scale (props : Analysis.Proportions) : Vector :=
  mkVector (Analysis.width props) (Analysis.height props) (Analysis.depth props).


Section Python.

(** [str.lower], Python's builtin. *)
Variable lower : string -> string.

(** [_analyze_reference_image] (lines 91-134). *)
Definition _analyze_reference_image (prompt : string) : M Analysis.t :=
  logger_info "Analyzing reference image for proportions and features" ;;;
  let prompt_lower := lower prompt in
  let analysis := analysis prompt_lower in
  logger_info "Analysis result" ;;;
  ret analysis.


End Python.

(** The values [create_smart_material] (lines 588-650) writes to the
    Principled BSDF inputs, from [desc_lower]; ['Subsurface'] is written in
    one branch only. *)
Record Principled : Type := mkPrincipled {
  base_color : Q * Q * Q * Q;
  metallic : Q;
  roughness : Q;
  subsurface : option Q
}.

Definition principled (desc_lower : string) : Principled :=
  if any_in ["metal"; "steel"; "iron"; "sword"]%string desc_lower then
    mkPrincipled (0.7, 0.7, 0.8, 1.0) 0.9 0.1 None
  else if any_in ["wood"; "tree"; "bark"]%string desc_lower then
    mkPrincipled (0.4, 0.2, 0.1, 1.0) 0.0 0.8 None
  else if any_in ["skin"; "flesh"; "human"; "creature"]%string desc_lower then
    mkPrincipled (0.8, 0.6, 0.5, 1.0) 0.0 0.3 (Some 0.1)
  else if any_in ["stone"; "rock"; "castle"; "building"]%string desc_lower then
    mkPrincipled (0.5, 0.5, 0.5, 1.0) 0.0 0.9 None
  else
    mkPrincipled (0.6, 0.6, 0.6, 1.0) 0.0 0.5 None.

Section Generation.

Variable lower : string -> string.

(** [Path(p).exists()]. *)
Variable path_exists : string -> bool.

(** The builders that only drive the host: each clears the scene, adds
    primitives, exports, sets [self.imported_objects] and returns the path
    of the export. *)
Variable _create_procedural_human : string -> MS string.
Variable _create_procedural_creature : string -> MS string.
Variable _create_procedural_building : string -> MS string.
Variable _create_procedural_generic : string -> MS string.
Variable _create_reference_guided_sword : string -> Analysis.t -> MS string.

(** The material block of [_setup_reference_image] (lines 327-349): a new
    material whose image texture is loaded from the path, appended to the
    plane's materials.  Materials are outside the state; the block returns
    or raises. *)
Variable reference_material : string -> result unit.

(** [_setup_reference_image] (lines 316-359). *)
Definition _setup_reference_image : MS bool := fun self =>
  match reference_image_path self with
  | None => retS false self
  | Some path =>
      if negb (path_exists path) then retS false self
      else
        try_exceptS
          (liftM (logger_info "Setting up reference image") ;;~
           set_reference_plane
             (set_name (primitive_plane_add 3 (mkVector 5 0 0)) "Reference_Image") ;;~
           liftR (reference_material path) ;;~
           liftM Smart._position_reference_plane ;;~
           liftM (logger_info "Reference image setup completed") ;;~
           retS true)
          (fun e =>
             liftM (logger_error "Failed to setup reference image") ;;~
             retS false)
          self
  end.

(** [character.scale = (props['width'], props['depth'], props['height'])]
    on [self.imported_objects[0]], under [if self.imported_objects:]. *)
Definition scale_first_imported (props : Analysis.Proportions) : MS unit :=
  fun self =>
    match imported_objects (state self) with
    | [] => retS tt self
    | obj :: rest =>
        set_imported_objects
          (set_scale obj (mkVector (Analysis.width props) (Analysis.depth props)
                                   (Analysis.height props)) :: rest) self
    end.

(** [_create_reference_guided_character] (lines 400-415). *)
Definition _create_reference_guided_character
    (prompt : string) (analysis : Analysis.t) : MS string :=
  liftM (logger_info "Creating reference-guided character") ;;~
  result <~ _create_procedural_human prompt ;;
  scale_first_imported (Analysis.proportions analysis) ;;~
  retS result.

(** [_create_reference_guided_building] (lines 417-432). *)
Definition _create_reference_guided_building
    (prompt : string) (analysis : Analysis.t) : MS string :=
  liftM (logger_info "Creating reference-guided building") ;;~
  result <~ _create_procedural_building prompt ;;
  scale_first_imported (Analysis.proportions analysis) ;;~
  retS result.

(** [_create_reference_guided_generic] (lines 434-449). *)
Definition _create_reference_guided_generic
    (prompt : string) (analysis : Analysis.t) : MS string :=
  liftM (logger_info "Creating reference-guided generic object") ;;~
  result <~ _create_procedural_generic prompt ;;
  scale_first_imported (Analysis.proportions analysis) ;;~
  retS result.

(** [_generate_with_reference_analysis] (lines 71-89). *)
Definition _generate_with_reference_analysis
    (prompt model_type : string) : MS (option string) := fun self =>
  match reference_image_path self with
  | None => retS None self
  | Some path =>
      (liftM (logger_info "Analyzing reference image") ;;~
       analysis <~ liftM (_analyze_reference_image lower prompt) ;;
       if String.eqb (Analysis.type analysis) "sword" then
         r <~ _create_reference_guided_sword prompt analysis ;; retS (Some r)
       else if String.eqb (Analysis.type analysis) "character" then
         r <~ _create_reference_guided_character prompt analysis ;; retS (Some r)
       else if String.eqb (Analysis.type analysis) "building" then
         r <~ _create_reference_guided_building prompt analysis ;; retS (Some r)
       else
         r <~ _create_reference_guided_generic prompt analysis ;; retS (Some r))
        self
  end.

(** [_generate_with_procedural] (lines 136-152).  The class defines no
    [_create_procedural_sword]: looking the attribute up raises. *)
Definition _generate_with_procedural
    (prompt model_type : string) : MS (option string) :=
  liftM (logger_info "Generating procedural model for") ;;~
  let prompt_lower := lower prompt in
  if any_in ["sword"; "blade"; "weapon"]%string prompt_lower then
    raiseS AttributeError
  else if any_in ["human"; "person"; "character"; "man"; "woman"]%string
                 prompt_lower then
    r <~ _create_procedural_human prompt ;; retS (Some r)
  else if any_in ["goblin"; "orc"; "monster"; "creature"]%string prompt_lower then
    r <~ _create_procedural_creature prompt ;; retS (Some r)
  else if any_in ["building"; "house"; "castle"; "tower"]%string prompt_lower then
    r <~ _create_procedural_building prompt ;; retS (Some r)
  else
    r <~ _create_procedural_generic prompt ;; retS (Some r).

(** [_generate_basic_primitive] (lines 583-586). *)
Definition _generate_basic_primitive
    (prompt model_type : string) : MS (option string) :=
  liftM (logger_info "Using basic primitive generation as fallback") ;;~
  r <~ _create_procedural_generic prompt ;; retS (Some r).

(** The loop of [generate_model_from_text] (lines 55-69): each method runs
    under [try]; a truthy result is returned, after the reference image is
    set up when there is one; a falsy result or an exception moves on to
    the next method. *)
Fixpoint try_methods (methods : list (MS (option string))) : MS (option string) :=
  match methods with
  | [] =>
      liftM (logger_error "All generation methods failed") ;;~ retS None
  | method :: rest =>
      fun self =>
        match (result <~ method ;;
               if truthy_opt_str result then
                 liftM (logger_info "Successfully generated model using") ;;~
                 (fun self' =>
                    match reference_image_path self' with
                    | Some _ => (_setup_reference_image ;;~ retS result) self'
                    | None => retS result self'
                    end)
               else retS None) self with
        | (self', Ok (Some r)) => (self', Ok (Some r))
        | (self', Ok None) => try_methods rest self'
        | (self', Raise e) =>
            (logger_warning "Method failed" ;;~ try_methods rest) self'
        end
  end.

(** [generate_model_from_text] (lines 39-69). *)
Definition generate_model_from_text
    (prompt model_type : string) (reference_image : option string)
  : MS (option string) :=
  liftM (logger_info "Generating 3D model from prompt") ;;~
  (match reference_image with
   | Some p =>
       if truthy_str p && path_exists p then
         set_reference_image_path p ;;~
         liftM (logger_info "Using reference image")
       else retS tt
   | None => retS tt
   end) ;;~
  try_methods [_generate_with_reference_analysis prompt model_type;
               _generate_with_procedural prompt model_type;
               _generate_basic_primitive prompt model_type].

End Generation.

End SmartBlendAI.

(** ** BlendAI_Smart.py: the pipeline *)
Module SmartPipeline.
Import SmartBlendAI.

Section Pipeline.

Variable lower : string -> string.
Variable path_exists : string -> bool.
Variables _create_procedural_human _create_procedural_creature
          _create_procedural_building _create_procedural_generic
  : string -> MS string.
Variable _create_reference_guided_sword : string -> Analysis.t -> MS string.
Variable reference_material : string -> result unit.

(** The node tree [create_smart_material] builds in the host from the
    material's name and the Principled values; it returns or raises. *)
Variable new_material : string -> Principled -> result unit.

(** [bpy.ops.wm.save_as_mainfile], for the file named after the prompt. *)
Variable save_as_mainfile : string -> result unit.

Variable to_track_quat_to_euler : Vector -> Vector.
Variable light_and_render : M unit.

(** [create_smart_material] (lines 588-650). *)
Definition create_smart_material (material_name description : string) : MS unit :=
  liftM (logger_info "Creating smart material") ;;~
  let desc_lower := lower description in
  liftR (new_material material_name (principled desc_lower)).

(** [apply_smart_materials] (lines 652-663): the loop over
    [self.imported_objects]. *)
Fixpoint apply_smart_materials_loop
    (objs : list Object) (description : string) : MS unit :=
  match objs with
  | [] => retS tt
  | obj :: rest =>
      (if is_mesh obj then
         let material_name := ("Smart_" ++ name obj)%string in
         create_smart_material material_name
                               (name obj ++ " " ++ description)%string ;;~
         liftM (logger_info "Applied smart material to")
       else retS tt) ;;~
      apply_smart_materials_loop rest description
  end.

Definition apply_smart_materials (description : string) : MS unit :=
  fun self => apply_smart_materials_loop (imported_objects (state self))
                                         description self.

(** [generate_and_process] (lines 730-754). *)
Definition generate_and_process
    (prompt description : string) (reference_image : option string) : MS bool :=
  liftM (logger_info "Starting smart generation pipeline for") ;;~
  (if truthy_opt_str reference_image
   then liftM (logger_info "Using reference image") else retS tt) ;;~
  model_path <~ generate_model_from_text lower path_exists
                  _create_procedural_human _create_procedural_creature
                  _create_procedural_building _create_procedural_generic
                  _create_reference_guided_sword reference_material
                  prompt "auto" reference_image ;;
  if negb (truthy_opt_str model_path) then
    liftM (logger_error "Failed to generate 3D model") ;;~ retS false
  else
    apply_smart_materials (prompt ++ " " ++ description)%string ;;~
    liftR (save_as_mainfile prompt) ;;~
    _ <~ liftM (Smart.render_smart_preview to_track_quat_to_euler light_and_render) ;;
    liftM (logger_info "Smart generation pipeline completed successfully!") ;;~
    retS true.

End Pipeline.
End SmartPipeline.

(** ** BlendAI_Ubuntu.py: the reference image *)
Module BlendAISetup.

Section ReferencePlane.

(** ['import_image' in dir(bpy.ops)]. *)
Variable import_image_available : bool.

(** [bpy.ops.import_image.to_plane(...)] followed by the set difference of
    the scene's objects: the new objects, or the exception raised. *)
Variable to_plane : result (list Object).

(** The material block of [_create_reference_plane_manually] (lines
    128-146). *)
Variable reference_material : result unit.

(** [_create_reference_plane_manually] (lines 120-160). *)
Definition _create_reference_plane_manually : MS bool :=
  try_exceptS
    (set_reference_plane
       (set_name (primitive_plane_add 2 (mkVector 0 0 0)) "Reference_Plane") ;;~
     liftR reference_material ;;~
     liftM Ubuntu._position_reference_plane ;;~
     liftM (logger_info "Reference plane created manually") ;;~
     retS true)
    (fun e =>
       liftM (logger_error "Failed to create reference plane manually") ;;~
       retS false).

(** [setup_reference_image] (lines 85-118). *)
Definition setup_reference_image : MS bool :=
  try_exceptS
    (if negb import_image_available then
       logger_warning
         "Import Images as Planes addon not available in headless mode" ;;~
       _create_reference_plane_manually
     else
       new_objects <~ liftR to_plane ;;
       match new_objects with
       | plane :: _ =>
           set_reference_plane plane ;;~
           liftM Ubuntu._position_reference_plane ;;~
           liftM (logger_info "Reference image imported and positioned") ;;~
           retS true
       | [] =>
           liftM (logger_error "Failed to import reference image") ;;~
           retS false
       end)
    (fun e =>
       liftM (logger_error "Failed to setup reference image") ;;~
       _create_reference_plane_manually).

End ReferencePlane.
End BlendAISetup.

(** ** Vocabulary of the generation statements *)


(** A plane is positioned for the box [lo]-[hi] as the Ubuntu script does. *)
Definition ubuntu_positioned (lo hi : Vector) (self : Self) : Prop :=
  exists p,
    reference_plane (state self) = Some p /\
    x (location p) == x hi + (x hi - x lo) * 0.5 /\
    z (location p) == z (midpoint lo hi).

(** ** Stand-ins for the host, to run the generation methods *)

(** A builder that sets one cube-like mesh as the imported object and
    returns an export path. *)
Definition sample_builder (path : string) (_ : string) : MS string :=
  set_imported_objects [mesh_of [mkVector (-1) (-1) (-1); mkVector 1 1 1]] ;;~
  retS path.

Definition sample_sword_builder (path : string) (_ : string)
    (_ : SmartBlendAI.Analysis.t) : MS string :=
  set_imported_objects [mesh_of [mkVector (-1) (-1) (-1); mkVector 1 1 1]] ;;~
  retS path.

Definition fresh_self : Self := mkSelf (mkState [] None None []) None [].

(** A script object that has generated the scenario's mesh and holds a
    reference image path. *)
Definition self_with_model : Self :=
  mkSelf (mkState [mesh_of scenario] None None []) (Some "ref.png"%string) [].

(** * Properties *)

(** Closed numeric goals, by evaluation. *)
Ltac Qdecide :=
  match goal with
  | |- ~ _ => let H := fresh in intro H; vm_compute in H; discriminate H
  | |- _ => vm_compute; reflexivity
  end.

Ltac Qpos := first [reflexivity | discriminate | (vm_compute; reflexivity)].

(** ** Python's [min] and [max] *)

Lemma Qltb_true (a b : Q) : Qltb a b = true -> a < b.
Proof.
  unfold Qltb. destruct (a ?= b) eqn:E; try discriminate.
  intros _. now apply Qlt_alt.
Qed.

Lemma Qltb_false (a b : Q) : Qltb a b = false -> b <= a.
Proof.
  unfold Qltb. destruct (a ?= b) eqn:E; try discriminate; intros _.
  - apply Qeq_alt in E. rewrite E. apply Qle_refl.
  - apply Qgt_alt in E. now apply Qlt_le_weak.
Qed.

Lemma min_from_le_init (items : list Q) :
  forall m, min_from m items <= m.
Proof.
  unfold min_from. induction items as [|i rest IH]; intros m; simpl.
  - apply Qle_refl.
  - destruct (Qltb i m) eqn:E.
    + apply Qle_trans with i; [apply IH|]. apply Qlt_le_weak, Qltb_true, E.
    + apply IH.
Qed.

Lemma min_from_lower (items : list Q) :
  forall m a, In a items -> min_from m items <= a.
Proof.
  unfold min_from. induction items as [|i rest IH]; intros m a Ha; simpl.
  - destruct Ha.
  - destruct Ha as [<-|Ha]; [|now apply IH].
    destruct (Qltb i m) eqn:E.
    + apply (min_from_le_init rest i).
    + apply Qle_trans with m; [apply (min_from_le_init rest m)|].
      apply Qltb_false, E.
Qed.

Lemma min_from_In (items : list Q) :
  forall m, min_from m items = m \/ In (min_from m items) items.
Proof.
  unfold min_from. induction items as [|i rest IH]; intros m; simpl.
  - now left.
  - destruct (Qltb i m).
    + destruct (IH i) as [->|H]; auto.
    + destruct (IH m) as [->|H]; auto.
Qed.

Lemma max_from_ge_init (items : list Q) :
  forall m, m <= max_from m items.
Proof.
  unfold max_from. induction items as [|i rest IH]; intros m; simpl.
  - apply Qle_refl.
  - destruct (Qltb m i) eqn:E.
    + apply Qle_trans with i; [|apply IH]. apply Qlt_le_weak, Qltb_true, E.
    + apply IH.
Qed.

Lemma max_from_upper (items : list Q) :
  forall m a, In a items -> a <= max_from m items.
Proof.
  unfold max_from. induction items as [|i rest IH]; intros m a Ha; simpl.
  - destruct Ha.
  - destruct Ha as [<-|Ha]; [|now apply IH].
    destruct (Qltb m i) eqn:E.
    + apply (max_from_ge_init rest i).
    + apply Qle_trans with m; [|apply (max_from_ge_init rest m)].
      apply Qltb_false, E.
Qed.

Lemma max_from_In (items : list Q) :
  forall m, max_from m items = m \/ In (max_from m items) items.
Proof.
  unfold max_from. induction items as [|i rest IH]; intros m; simpl.
  - now left.
  - destruct (Qltb m i).
    + destruct (IH i) as [->|H]; auto.
    + destruct (IH m) as [->|H]; auto.
Qed.

Lemma py_min_is_minimum (items : list Q) (m : Q) :
  py_min items = Ok m -> is_minimum m items.
Proof.
  destruct items as [|i rest]; simpl; [discriminate|].
  intros [= <-]. split.
  - destruct (min_from_In rest i) as [->|H]; simpl; auto.
  - intros a [<-|Ha]; [apply min_from_le_init | now apply min_from_lower].
Qed.

Lemma py_max_is_maximum (items : list Q) (m : Q) :
  py_max items = Ok m -> is_maximum m items.
Proof.
  destruct items as [|i rest]; simpl; [discriminate|].
  intros [= <-]. split.
  - destruct (max_from_In rest i) as [->|H]; simpl; auto.
  - intros a [<-|Ha]; [apply max_from_ge_init | now apply max_from_upper].
Qed.

Lemma Qmax_Qltb (a b : Q) : Qmax a b = if Qltb a b then b else a.
Proof.
  unfold Qmax, GenericMinMax.gmax, Qltb. now destruct (a ?= b).
Qed.

Lemma py_max_components (v : Vector) :
  py_max (components v) = Ok (max_extent v).
Proof.
  unfold components, py_max, max_from, max_extent. simpl.
  now rewrite !Qmax_Qltb.
Qed.

Lemma max_extent_is_maximum (v : Vector) :
  is_maximum (max_extent v) (components v).
Proof. apply py_max_is_maximum, py_max_components. Qed.

(** ** The bounds *)

Lemma min_coords_nonempty (coords : list Vector) (lo : Vector) :
  min_coords coords = Ok lo -> coords <> [].
Proof. destruct coords; [discriminate | discriminate]. Qed.

Lemma min_coords_total (coords : list Vector) :
  coords <> [] -> exists lo, min_coords coords = Ok lo.
Proof.
  destruct coords as [|c cs]; [congruence|]. intros _. eexists. reflexivity.
Qed.

Lemma max_coords_total (coords : list Vector) :
  coords <> [] -> exists hi, max_coords coords = Ok hi.
Proof.
  destruct coords as [|c cs]; [congruence|]. intros _. eexists. reflexivity.
Qed.

Lemma min_coords_is_minimum (coords : list Vector) (lo : Vector) :
  min_coords coords = Ok lo ->
  is_minimum (x lo) (map x coords) /\
  is_minimum (y lo) (map y coords) /\
  is_minimum (z lo) (map z coords).
Proof.
  unfold min_coords. intros H.
  destruct (py_min (map x coords)) as [mx|] eqn:Ex; [|discriminate].
  destruct (py_min (map y coords)) as [my|] eqn:Ey; [|discriminate].
  destruct (py_min (map z coords)) as [mz|] eqn:Ez; [|discriminate].
  simpl in H. injection H as <-. simpl.
  auto using py_min_is_minimum.
Qed.

Lemma max_coords_is_maximum (coords : list Vector) (hi : Vector) :
  max_coords coords = Ok hi ->
  is_maximum (x hi) (map x coords) /\
  is_maximum (y hi) (map y coords) /\
  is_maximum (z hi) (map z coords).
Proof.
  unfold max_coords. intros H.
  destruct (py_max (map x coords)) as [mx|] eqn:Ex; [|discriminate].
  destruct (py_max (map y coords)) as [my|] eqn:Ey; [|discriminate].
  destruct (py_max (map z coords)) as [mz|] eqn:Ez; [|discriminate].
  simpl in H. injection H as <-. simpl.
  auto using py_max_is_maximum.
Qed.

Lemma minimum_le_maximum (l : list Q) (lo hi : Q) :
  is_minimum lo l -> is_maximum hi l -> lo <= hi.
Proof. intros [Hin _] [_ Hub]. now apply Hub. Qed.

Lemma bounds_ordered (coords : list Vector) (lo hi : Vector) :
  min_coords coords = Ok lo -> max_coords coords = Ok hi ->
  x lo <= x hi /\ y lo <= y hi /\ z lo <= z hi.
Proof.
  intros Hlo Hhi.
  destruct (min_coords_is_minimum _ _ Hlo) as (Hx & Hy & Hz).
  destruct (max_coords_is_maximum _ _ Hhi) as (Gx & Gy & Gz).
  repeat split; eapply minimum_le_maximum; eassumption.
Qed.

(** ** The gathered coordinates *)

Lemma append_vertices_app (obj : Object) (acc : list Vector) :
  append_vertices obj acc = acc ++ world_coords obj.
Proof.
  unfold append_vertices, world_coords.
  revert acc. induction (vertices (data obj)) as [|v vs IH]; intros acc; simpl.
  - now rewrite app_nil_r.
  - rewrite IH, <- app_assoc. reflexivity.
Qed.

Lemma all_coords_from (objs : list Object) :
  forall acc,
    fold_left (fun acc obj => if is_mesh obj then append_vertices obj acc else acc)
              objs acc
    = acc ++ flat_map world_coords (filter is_mesh objs).
Proof.
  induction objs as [|o os IH]; intros acc; simpl.
  - now rewrite app_nil_r.
  - rewrite IH. destruct (is_mesh o); simpl; [|reflexivity].
    now rewrite append_vertices_app, <- app_assoc.
Qed.

Lemma all_coords_flat_map (objs : list Object) :
  all_coords objs = flat_map world_coords (filter is_mesh objs).
Proof. unfold all_coords. now rewrite all_coords_from. Qed.

Lemma all_coords_no_mesh (objs : list Object) :
  Forall (fun obj => is_mesh obj = false) objs -> all_coords objs = [].
Proof.
  intros H. rewrite all_coords_flat_map.
  induction H as [|o os Ho _ IH]; simpl; [reflexivity|].
  now rewrite Ho.
Qed.

(** ** Running the methods *)

Lemma model_center_midpoint (lo hi : Vector) :
  Smart.model_center lo hi = Ok (midpoint lo hi).
Proof. reflexivity. Qed.

Lemma center_midpoint (lo hi : Vector) :
  Smart.center lo hi = Ok (midpoint lo hi).
Proof. reflexivity. Qed.

Lemma bounds_objects_nonempty (objs : list Object) (lo : Vector) :
  min_coords (all_coords objs) = Ok lo -> truthy_list objs = true.
Proof. destruct objs; [discriminate | reflexivity]. Qed.

Lemma bounds_coords_nonempty (coords : list Vector) (lo : Vector) :
  min_coords coords = Ok lo -> truthy_list coords = true.
Proof. destruct coords; [discriminate | reflexivity]. Qed.

(** When nothing was gathered, each method returns at once: the state is
    the one it was given and nothing is raised. *)
Lemma smart_plane_skips (self : State) :
  all_coords (imported_objects self) = [] ->
  Smart._position_reference_plane self = (self, Ok tt).
Proof.
  intros H. unfold Smart._position_reference_plane.
  destruct (negb (truthy_opt (reference_plane self))
            || negb (truthy_list (imported_objects self))); [reflexivity|].
  unfold try_except. rewrite H. reflexivity.
Qed.

Lemma ubuntu_plane_skips (self : State) :
  all_coords (imported_objects self) = [] ->
  Ubuntu._position_reference_plane self = (self, Ok tt).
Proof.
  intros H. unfold Ubuntu._position_reference_plane.
  destruct (negb (truthy_list (imported_objects self))
            || negb (truthy_opt (reference_plane self))); [reflexivity|].
  rewrite H. reflexivity.
Qed.

Lemma smart_camera_skips (tq : Vector -> Vector) (self : State) :
  all_coords (imported_objects self) = [] ->
  Smart.render_smart_preview_camera tq self = (self, Ok tt).
Proof.
  intros H. unfold Smart.render_smart_preview_camera.
  destruct (truthy_list (imported_objects self)); [|reflexivity].
  rewrite H. reflexivity.
Qed.

(** With a plane and a box, [Smart._position_reference_plane] runs through:
    three assignments to the plane and one log record. *)
Lemma smart_plane_runs (self : State) (plane : Object) (lo hi : Vector) :
  reference_plane self = Some plane ->
  min_coords (all_coords (imported_objects self)) = Ok lo ->
  max_coords (all_coords (imported_objects self)) = Ok hi ->
  Smart._position_reference_plane self =
    (mkState (imported_objects self)
       (Some (mkObject (name plane) (type plane) (data plane) (matrix_world plane)
                (mkVector (x (midpoint lo hi) + max_extent (vsub hi lo) * 1.5)
                          (y (location plane))
                          (z (midpoint lo hi)))
                (rotation_euler plane)
                (mkVector (max_extent (vsub hi lo) * 0.8)
                          (max_extent (vsub hi lo) * 0.8) 1)))
       (camera self)
       (log self ++ [(INFO, "Reference plane positioned at"%string)]),
     Ok tt).
Proof.
  intros Hp Hlo Hhi. unfold Smart._position_reference_plane.
  rewrite Hp, (bounds_objects_nonempty _ _ Hlo). simpl negb. simpl orb. cbv iota.
  unfold try_except. cbv zeta.
  rewrite (bounds_coords_nonempty _ _ Hlo).
  unfold bind at 1. unfold lift at 1. rewrite Hlo.
  unfold bind at 1. unfold lift at 1. rewrite Hhi.
  unfold bind at 1. unfold lift at 1. rewrite model_center_midpoint.
  unfold bind at 1. unfold lift at 1.
  unfold Smart.offset_distance, Smart.scale_factor, Smart.model_size.
  rewrite py_max_components. cbn [bind_result].
  unfold bind, lift, update_reference_plane, logger_info. cbn [reference_plane].
  rewrite Hp. reflexivity.
Qed.

(** [Ubuntu._position_reference_plane] writes the plane's X and Z only. *)
Lemma ubuntu_plane_runs (self : State) (plane : Object) (lo hi : Vector) :
  reference_plane self = Some plane ->
  min_coords (all_coords (imported_objects self)) = Ok lo ->
  max_coords (all_coords (imported_objects self)) = Ok hi ->
  Ubuntu._position_reference_plane self =
    (mkState (imported_objects self)
       (Some (mkObject (name plane) (type plane) (data plane) (matrix_world plane)
                (mkVector (x hi + (x hi - x lo) * 0.5)
                          (y (location plane))
                          ((z lo + z hi) / 2))
                (rotation_euler plane)
                (scale plane)))
       (camera self)
       (log self),
     Ok tt).
Proof.
  intros Hp Hlo Hhi. unfold Ubuntu._position_reference_plane.
  rewrite Hp, (bounds_objects_nonempty _ _ Hlo). simpl negb. simpl orb. cbv iota.
  cbv zeta. rewrite (bounds_coords_nonempty _ _ Hlo).
  unfold bind at 1. unfold lift at 1. rewrite Hlo.
  unfold bind at 1. unfold lift at 1. rewrite Hhi.
  unfold Ubuntu.model_width.
  unfold bind, lift, update_reference_plane. cbn [reference_plane].
  rewrite Hp. reflexivity.
Qed.

(** The camera block places the scene's camera, or a new one. *)
Lemma smart_camera_runs (tq : Vector -> Vector) (self : State) (lo hi : Vector) :
  min_coords (all_coords (imported_objects self)) = Ok lo ->
  max_coords (all_coords (imported_objects self)) = Ok hi ->
  let cam := match camera self with Some cam => cam | None => Smart.camera_add end in
  let d := max_extent (vsub hi lo) * 2 in
  let loc := vadd (midpoint lo hi) (mkVector d (- d) (d * 0.5)) in
  Smart.render_smart_preview_camera tq self =
    (mkState (imported_objects self) (reference_plane self)
       (Some (mkObject (name cam) (type cam) (data cam) (matrix_world cam)
                loc (tq (vsub (midpoint lo hi) loc)) (scale cam)))
       (log self),
     Ok tt).
Proof.
  intros Hlo Hhi. unfold Smart.render_smart_preview_camera.
  rewrite (bounds_objects_nonempty _ _ Hlo). cbv iota zeta.
  rewrite (bounds_coords_nonempty _ _ Hlo).
  unfold bind at 1. unfold lift at 1. rewrite Hlo.
  unfold bind at 1. unfold lift at 1. rewrite Hhi.
  unfold bind at 1. unfold lift at 1. rewrite center_midpoint.
  unfold bind at 1. unfold lift at 1.
  unfold Smart.distance, Smart.size.
  rewrite py_max_components. cbn [bind_result].
  reflexivity.
Qed.

(** No exception leaves the Smart methods: [except Exception] catches
    whatever the body raises, logs it and returns. *)
Lemma smart_plane_never_raises (self : State) :
  snd (Smart._position_reference_plane self) = Ok tt.
Proof.
  unfold Smart._position_reference_plane.
  destruct (negb (truthy_opt (reference_plane self))
            || negb (truthy_list (imported_objects self))); [reflexivity|].
  unfold try_except.
  match goal with
  | |- context [match ?body with _ => _ end] => destruct body as [s' [[]|e]]
  end; reflexivity.
Qed.

Lemma render_smart_preview_never_raises
    (tq : Vector -> Vector) (tail : M unit) (self : State) :
  exists b, snd (Smart.render_smart_preview tq tail self) = Ok b.
Proof.
  unfold Smart.render_smart_preview, try_except.
  match goal with
  | |- context [match ?body with _ => _ end] => destruct body as [s' [b|e]]
  end.
  - now exists b.
  - now exists false.
Qed.

(** The Ubuntu method has no handler and needs none: its guards keep
    [min], [max] and the attribute accesses from raising. *)
Lemma ubuntu_plane_never_raises (self : State) :
  snd (Ubuntu._position_reference_plane self) = Ok tt.
Proof.
  destruct (all_coords (imported_objects self)) as [|c cs] eqn:E.
  - now rewrite (ubuntu_plane_skips self E).
  - assert (Hc : c :: cs <> []) by discriminate.
    destruct (min_coords_total _ Hc) as [lo Hlo].
    destruct (max_coords_total _ Hc) as [hi Hhi].
    rewrite <- E in Hlo, Hhi.
    destruct (reference_plane self) as [plane|] eqn:Hp.
    + now rewrite (ubuntu_plane_runs self plane lo hi Hp Hlo Hhi).
    + unfold Ubuntu._position_reference_plane. rewrite Hp.
      now rewrite orb_true_r.
Qed.

(** * The claims *)

(** ** C1: the empty point sequence *)

(** Evaluated without the guard, the bounds of the empty sequence raise
    Python's [ValueError]; both scripts test [if all_coords:] first. *)
Lemma min_coords_empty_raises : min_coords [] = Raise ValueError.
Proof. reflexivity. Qed.

(** C1, as stated, fails: with a plane, one mesh object and no vertex, the
    gathered sequence is empty and neither [_position_reference_plane]
    raises anything: both return normally. *)
Lemma C1_counterexample :
  all_coords (imported_objects (scene_of [])) = [] /\
  snd (Smart._position_reference_plane (scene_of [])) = Ok tt /\
  snd (Ubuntu._position_reference_plane (scene_of [])) = Ok tt /\
  ~ (exists e, snd (Smart._position_reference_plane (scene_of [])) = Raise e) /\
  ~ (exists e, snd (Ubuntu._position_reference_plane (scene_of [])) = Raise e).
Proof.
  repeat split; try reflexivity; intros [e H]; discriminate H.
Qed.

(** C1 (amended): for every empty gathered point sequence no bounding box
    and no placement is produced, and nothing is raised: each method returns
    normally with the state it was given (plane, camera and log untouched). *)
Theorem C1_empty_input_is_skipped (self : State) :
  all_coords (imported_objects self) = [] ->
  Smart._position_reference_plane self = (self, Ok tt) /\
  Ubuntu._position_reference_plane self = (self, Ok tt) /\
  forall tq, Smart.render_smart_preview_camera tq self = (self, Ok tt).
Proof.
  intros H. split; [|split].
  - now apply smart_plane_skips.
  - now apply ubuntu_plane_skips.
  - intros tq. now apply smart_camera_skips.
Qed.

Lemma C1_empty_input_is_skipped_witness :
  all_coords (imported_objects (scene_of [])) = [] /\
  Smart._position_reference_plane (scene_of []) = (scene_of [], Ok tt) /\
  Ubuntu._position_reference_plane (scene_of []) = (scene_of [], Ok tt) /\
  forall tq, Smart.render_smart_preview_camera tq (scene_of []) = (scene_of [], Ok tt).
Proof.
  split; [reflexivity|].
  apply (C1_empty_input_is_skipped (scene_of [])). reflexivity.
Defined.

(** ** C2: the centre and the convex hull *)

(** C2, as stated, fails: for the points (1,0,0), (0,1,0), (0,0,1) the box
    is (0,0,0)-(1,1,1) and its centre (1/2,1/2,1/2) has coordinate sum 3/2,
    while every convex combination of the points has coordinate sum 1. *)
Lemma C2_counterexample :
  let pts := all_coords [mesh_of corners] in
  pts = corners /\
  min_coords pts = Ok (mkVector 0 0 0) /\
  max_coords pts = Ok (mkVector 1 1 1) /\
  Smart.center (mkVector 0 0 0) (mkVector 1 1 1)
    = Ok (mkVector (1#2) (1#2) (1#2)) /\
  ~ in_convex_hull (mkVector (1#2) (1#2) (1#2)) pts.
Proof.
  assert (E : all_coords [mesh_of corners] = corners) by (vm_compute; reflexivity).
  cbv zeta. rewrite E.
  split; [reflexivity|]. split; [vm_compute; reflexivity|].
  split; [vm_compute; reflexivity|]. split; [vm_compute; reflexivity|].
  intros (ws & Hlen & _ & Hsum & Hx & Hy & Hz).
  destruct ws as [|w1 [|w2 [|w3 [|w4 ws]]]]; try discriminate Hlen.
  cbv [corners weighted_sum vadd vscale x y z] in Hx, Hy, Hz.
  cbv [Qsum fold_right] in Hsum.
  lra.
Qed.

Lemma Qhalf (a : Q) : a / 2 == a * (1#2).
Proof. field. Qed.

Lemma midpoint_between (a b : Q) : a <= b -> a <= (a + b) / 2 <= b.
Proof. intros H. rewrite Qhalf. split; lra. Qed.

(** C2 (amended): for every non-empty point sequence the centre lies within
    the bounding box of the points: on each axis it is between the least
    and the greatest coordinate found among the points. *)
Theorem C2_center_within_bounding_box (coords : list Vector) :
  coords <> [] ->
  exists lo hi c,
    min_coords coords = Ok lo /\ max_coords coords = Ok hi /\
    Smart.center lo hi = Ok c /\
    is_minimum (x lo) (map x coords) /\ is_maximum (x hi) (map x coords) /\
    is_minimum (y lo) (map y coords) /\ is_maximum (y hi) (map y coords) /\
    is_minimum (z lo) (map z coords) /\ is_maximum (z hi) (map z coords) /\
    x lo <= x c <= x hi /\ y lo <= y c <= y hi /\ z lo <= z c <= z hi.
Proof.
  intros Hne.
  destruct (min_coords_total coords Hne) as [lo Hlo].
  destruct (max_coords_total coords Hne) as [hi Hhi].
  exists lo, hi, (midpoint lo hi).
  destruct (min_coords_is_minimum _ _ Hlo) as (Hx & Hy & Hz).
  destruct (max_coords_is_maximum _ _ Hhi) as (Gx & Gy & Gz).
  destruct (bounds_ordered _ _ _ Hlo Hhi) as (Ox & Oy & Oz).
  repeat match goal with |- _ /\ _ => split end;
    try assumption; try reflexivity;
    cbn [midpoint x y z]; apply midpoint_between; assumption.
Qed.

Lemma C2_center_within_bounding_box_witness :
  scenario <> [] /\
  exists lo hi c,
    min_coords scenario = Ok lo /\ max_coords scenario = Ok hi /\
    Smart.center lo hi = Ok c /\
    is_minimum (x lo) (map x scenario) /\ is_maximum (x hi) (map x scenario) /\
    is_minimum (y lo) (map y scenario) /\ is_maximum (y hi) (map y scenario) /\
    is_minimum (z lo) (map z scenario) /\ is_maximum (z hi) (map z scenario) /\
    x lo <= x c <= x hi /\ y lo <= y c <= y hi /\ z lo <= z c <= z hi.
Proof.
  split; [discriminate|].
  apply (C2_center_within_bounding_box scenario). discriminate.
Defined.

(** ** C5: the bounding box *)

(** C5: for every non-empty point sequence the bounds exist, each bound is
    the least (greatest) coordinate among the points on its axis, the box is
    ordered componentwise, and no method changes the objects it reads. *)
Theorem C5_bounding_box_min_max (coords : list Vector) :
  coords <> [] ->
  (exists lo hi,
     min_coords coords = Ok lo /\ max_coords coords = Ok hi /\
     is_minimum (x lo) (map x coords) /\ is_maximum (x hi) (map x coords) /\
     is_minimum (y lo) (map y coords) /\ is_maximum (y hi) (map y coords) /\
     is_minimum (z lo) (map z coords) /\ is_maximum (z hi) (map z coords) /\
     x lo <= x hi /\ y lo <= y hi /\ z lo <= z hi) /\
  (forall self,
     imported_objects (fst (Smart._position_reference_plane self))
       = imported_objects self /\
     imported_objects (fst (Ubuntu._position_reference_plane self))
       = imported_objects self /\
     forall tq,
       imported_objects (fst (Smart.render_smart_preview_camera tq self))
         = imported_objects self).
Proof.
  intros Hne. split.
  - destruct (min_coords_total coords Hne) as [lo Hlo].
    destruct (max_coords_total coords Hne) as [hi Hhi].
    exists lo, hi.
    destruct (min_coords_is_minimum _ _ Hlo) as (Hx & Hy & Hz).
    destruct (max_coords_is_maximum _ _ Hhi) as (Gx & Gy & Gz).
    destruct (bounds_ordered _ _ _ Hlo Hhi) as (Ox & Oy & Oz).
    repeat match goal with |- _ /\ _ => split end; assumption.
  - intros self.
    destruct (all_coords (imported_objects self)) as [|c cs] eqn:E.
    + rewrite (smart_plane_skips self E), (ubuntu_plane_skips self E).
      repeat split. intros tq. now rewrite (smart_camera_skips tq self E).
    + assert (Hc : c :: cs <> []) by discriminate.
      destruct (min_coords_total _ Hc) as [lo Hlo].
      destruct (max_coords_total _ Hc) as [hi Hhi].
      rewrite <- E in Hlo, Hhi.
      split; [|split].
      * destruct (reference_plane self) as [plane|] eqn:Hp.
        -- now rewrite (smart_plane_runs self plane lo hi Hp Hlo Hhi).
        -- unfold Smart._position_reference_plane. now rewrite Hp.
      * destruct (reference_plane self) as [plane|] eqn:Hp.
        -- now rewrite (ubuntu_plane_runs self plane lo hi Hp Hlo Hhi).
        -- unfold Ubuntu._position_reference_plane. rewrite Hp.
           now rewrite orb_true_r.
      * intros tq. now rewrite (smart_camera_runs tq self lo hi Hlo Hhi).
Qed.

Lemma C5_bounding_box_min_max_witness :
  scenario <> [] /\
  min_coords scenario = Ok (mkVector 0 0 0) /\
  max_coords scenario = Ok (mkVector 2 0 4) /\
  exists lo hi,
    min_coords scenario = Ok lo /\ max_coords scenario = Ok hi /\
    is_minimum (x lo) (map x scenario) /\ is_maximum (x hi) (map x scenario) /\
    is_minimum (y lo) (map y scenario) /\ is_maximum (y hi) (map y scenario) /\
    is_minimum (z lo) (map z scenario) /\ is_maximum (z hi) (map z scenario) /\
    x lo <= x hi /\ y lo <= y hi /\ z lo <= z hi.
Proof.
  split; [discriminate|]. split; [reflexivity|]. split; [reflexivity|].
  apply (C5_bounding_box_min_max scenario). discriminate.
Defined.

(** ** C7: a single point *)

Lemma Qminus_self (a : Q) : a - a == 0.
Proof. lra. Qed.

(** C7: for a single point [p] the bounds are both [p] itself, and the size
    computed from them is the zero vector. *)
Theorem C7_single_point (p : Vector) :
  min_coords [p] = Ok p /\
  max_coords [p] = Ok p /\
  veq (Smart.size p p) (mkVector 0 0 0) /\
  veq (Smart.model_size p p) (mkVector 0 0 0).
Proof.
  destruct p as [px py pz].
  repeat split; cbn [Smart.size Smart.model_size vsub x y z];
    apply Qminus_self.
Qed.

(** ** C3: the reference plane *)

(** C3, as stated, fails on the spec's scenario (box (0,0,0)-(2,0,4),
    centre x = 1, largest extent 4).  The Smart script puts the plane at
    x = 7 whatever multiplier is asked for (here 0); the Ubuntu script puts
    it at x = 3, which is not 1 + 4 * 1.5, and leaves the scale alone. *)
Lemma C3_counterexample :
  let self := scene_of scenario in
  let lo := mkVector 0 0 0 in
  let hi := mkVector 2 0 4 in
  min_coords (all_coords (imported_objects self)) = Ok lo /\
  max_coords (all_coords (imported_objects self)) = Ok hi /\
  x (midpoint lo hi) == 1 /\
  max_extent (vsub hi lo) == 4 /\
  (exists p,
     reference_plane (fst (Smart._position_reference_plane self)) = Some p /\
     x (location p) == 7 /\
     ~ x (location p) == x (midpoint lo hi) + max_extent (vsub hi lo) * 0) /\
  (exists p,
     reference_plane (fst (Ubuntu._position_reference_plane self)) = Some p /\
     x (location p) == 3 /\
     ~ x (location p) == x (midpoint lo hi) + max_extent (vsub hi lo) * 1.5 /\
     scale p = mkVector 1 1 1 /\
     ~ x (scale p) == max_extent (vsub hi lo) * 0.8).
Proof.
  cbv zeta.
  split; [Qdecide|]. split; [Qdecide|]. split; [Qdecide|]. split; [Qdecide|].
  split; eexists; (split; [vm_compute; reflexivity|]); repeat split; Qdecide.
Qed.

(** C3 (amended): with a plane and a bounding box [lo]-[hi], the Smart
    script puts the plane at centre.x + maxExtent * 1.5 on X (the multiplier
    is the constant 1.5) and at centre.z on Z, and sets its scale to
    (maxExtent * 0.8, maxExtent * 0.8, 1); the Ubuntu script puts it at
    max.x + (max.x - min.x) * 0.5 on X and at centre.z on Z, and keeps its
    scale. *)
Theorem C3_reference_plane_placement (self : State) (plane : Object) (lo hi : Vector) :
  reference_plane self = Some plane ->
  min_coords (all_coords (imported_objects self)) = Ok lo ->
  max_coords (all_coords (imported_objects self)) = Ok hi ->
  (exists p,
     Smart._position_reference_plane self
       = (mkState (imported_objects self) (Some p) (camera self)
            (log self ++ [(INFO, "Reference plane positioned at"%string)]), Ok tt) /\
     x (location p) == x (midpoint lo hi) + max_extent (vsub hi lo) * 1.5 /\
     z (location p) == z (midpoint lo hi) /\
     x (scale p) == max_extent (vsub hi lo) * 0.8 /\
     y (scale p) == max_extent (vsub hi lo) * 0.8 /\
     z (scale p) == 1) /\
  (exists p,
     Ubuntu._position_reference_plane self
       = (mkState (imported_objects self) (Some p) (camera self) (log self), Ok tt) /\
     x (location p) == x hi + (x hi - x lo) * 0.5 /\
     z (location p) == z (midpoint lo hi) /\
     scale p = scale plane).
Proof.
  intros Hp Hlo Hhi. split.
  - eexists. split; [apply (smart_plane_runs self plane lo hi Hp Hlo Hhi)|].
    cbn [location scale x y z]. repeat split; reflexivity.
  - eexists. split; [apply (ubuntu_plane_runs self plane lo hi Hp Hlo Hhi)|].
    cbn [location scale x y z midpoint]. repeat split; reflexivity.
Qed.

Lemma C3_reference_plane_placement_witness :
  let self := scene_of scenario in
  let lo := mkVector 0 0 0 in
  let hi := mkVector 2 0 4 in
  (reference_plane self = Some plane0 /\
   min_coords (all_coords (imported_objects self)) = Ok lo /\
   max_coords (all_coords (imported_objects self)) = Ok hi) /\
  (exists p,
     Smart._position_reference_plane self
       = (mkState (imported_objects self) (Some p) (camera self)
            (log self ++ [(INFO, "Reference plane positioned at"%string)]), Ok tt) /\
     x (location p) == x (midpoint lo hi) + max_extent (vsub hi lo) * 1.5 /\
     z (location p) == z (midpoint lo hi) /\
     x (scale p) == max_extent (vsub hi lo) * 0.8 /\
     y (scale p) == max_extent (vsub hi lo) * 0.8 /\
     z (scale p) == 1) /\
  (exists p,
     Ubuntu._position_reference_plane self
       = (mkState (imported_objects self) (Some p) (camera self) (log self), Ok tt) /\
     x (location p) == x hi + (x hi - x lo) * 0.5 /\
     z (location p) == z (midpoint lo hi) /\
     scale p = scale plane0).
Proof.
  cbv zeta. split.
  - repeat split; vm_compute; reflexivity.
  - apply (C3_reference_plane_placement (scene_of scenario) plane0
             (mkVector 0 0 0) (mkVector 2 0 4));
      vm_compute; reflexivity.
Defined.

(** The spec's scenario, run: plane at (7, _, 2) with scale 3.2, where the
    plane's Y is the one it had. *)
Example scenario_plane :
  exists p,
    reference_plane (fst (Smart._position_reference_plane (scene_of scenario)))
      = Some p /\
    x (location p) == 7 /\ y (location p) = y (location plane0) /\
    z (location p) == 2 /\
    x (scale p) == 3.2 /\ y (scale p) == 3.2 /\ z (scale p) == 1.
Proof.
  eexists. split; [vm_compute; reflexivity|]. repeat split; Qdecide.
Qed.

(** ** C4: the camera *)

(** C4, as stated, fails on the spec's scenario with a camera height ratio
    of 1: the camera goes to (9, -8, 6), and centre + (8, -8, 8 * 1) is
    (9, -8, 10). *)
Lemma C4_counterexample :
  let self := scene_of scenario in
  let lo := mkVector 0 0 0 in
  let hi := mkVector 2 0 4 in
  let d := max_extent (vsub hi lo) * 2 in
  min_coords (all_coords (imported_objects self)) = Ok lo /\
  max_coords (all_coords (imported_objects self)) = Ok hi /\
  veq (midpoint lo hi) (mkVector 1 0 2) /\
  d == 8 /\
  exists cam,
    camera (fst (Smart.render_smart_preview_camera (fun v => v) self)) = Some cam /\
    veq (location cam) (mkVector 9 (-8) 6) /\
    ~ veq (location cam) (vadd (midpoint lo hi) (mkVector d (- d) (d * 1))).
Proof.
  cbv zeta.
  split; [Qdecide|]. split; [Qdecide|].
  split; [repeat split; Qdecide|]. split; [Qdecide|].
  eexists. split; [vm_compute; reflexivity|]. split.
  - repeat split; Qdecide.
  - intros (_ & _ & Hz). vm_compute in Hz. discriminate Hz.
Qed.

(** C4 (amended): for every bounding box [lo]-[hi] the camera block puts
    the camera (the scene's, or a new one) at
    centre + (distance, -distance, distance * 0.5) with
    distance = maxExtent * 2; the height ratio is the constant 0.5. *)
Theorem C4_camera_position (tq : Vector -> Vector) (self : State) (lo hi : Vector) :
  min_coords (all_coords (imported_objects self)) = Ok lo ->
  max_coords (all_coords (imported_objects self)) = Ok hi ->
  exists cam d,
    Smart.render_smart_preview_camera tq self
      = (mkState (imported_objects self) (reference_plane self) (Some cam)
           (log self), Ok tt) /\
    Smart.distance (Smart.size lo hi) = Ok d /\
    d = max_extent (vsub hi lo) * 2 /\
    location cam = vadd (midpoint lo hi) (mkVector d (- d) (d * 0.5)).
Proof.
  intros Hlo Hhi. eexists. exists (max_extent (vsub hi lo) * 2).
  split; [apply (smart_camera_runs tq self lo hi Hlo Hhi)|].
  split; [|split; reflexivity].
  unfold Smart.distance, Smart.size. now rewrite py_max_components.
Qed.

Lemma C4_camera_position_witness :
  let self := scene_of scenario in
  let lo := mkVector 0 0 0 in
  let hi := mkVector 2 0 4 in
  (min_coords (all_coords (imported_objects self)) = Ok lo /\
   max_coords (all_coords (imported_objects self)) = Ok hi) /\
  exists cam d,
    Smart.render_smart_preview_camera (fun v => v) self
      = (mkState (imported_objects self) (reference_plane self) (Some cam)
           (log self), Ok tt) /\
    Smart.distance (Smart.size lo hi) = Ok d /\
    d = max_extent (vsub hi lo) * 2 /\
    location cam = vadd (midpoint lo hi) (mkVector d (- d) (d * 0.5)).
Proof.
  cbv zeta. split.
  - split; vm_compute; reflexivity.
  - apply (C4_camera_position (fun v => v) (scene_of scenario)
             (mkVector 0 0 0) (mkVector 2 0 4));
      vm_compute; reflexivity.
Defined.

(** ** C6: the degenerate box *)

Lemma max_extent_zero (v : Vector) :
  0 <= x v -> 0 <= y v -> 0 <= z v -> max_extent v == 0 ->
  x v == 0 /\ y v == 0 /\ z v == 0.
Proof.
  intros Hx Hy Hz H.
  destruct (max_extent_is_maximum v) as [_ Hub].
  assert (Ux : x v <= max_extent v) by (apply Hub; simpl; auto).
  assert (Uy : y v <= max_extent v) by (apply Hub; simpl; auto).
  assert (Uz : z v <= max_extent v) by (apply Hub; simpl; auto).
  rewrite H in Ux, Uy, Uz. repeat split; lra.
Qed.

Lemma size_nonneg (coords : list Vector) (lo hi : Vector) :
  min_coords coords = Ok lo -> max_coords coords = Ok hi ->
  0 <= x (vsub hi lo) /\ 0 <= y (vsub hi lo) /\ 0 <= z (vsub hi lo).
Proof.
  intros Hlo Hhi. destruct (bounds_ordered _ _ _ Hlo Hhi) as (Ox & Oy & Oz).
  cbn [vsub x y z]. repeat split; lra.
Qed.

(** With a zero largest extent every gathered point is the box's corner. *)
Lemma degenerate_points_coincide (coords : list Vector) (lo hi : Vector) :
  min_coords coords = Ok lo -> max_coords coords = Ok hi ->
  max_extent (vsub hi lo) == 0 ->
  forall p, In p coords -> veq p lo /\ veq p hi.
Proof.
  intros Hlo Hhi H0 p Hp.
  destruct (size_nonneg _ _ _ Hlo Hhi) as (Sx & Sy & Sz).
  destruct (max_extent_zero _ Sx Sy Sz H0) as (Zx & Zy & Zz).
  cbn [vsub x y z] in Zx, Zy, Zz.
  destruct (min_coords_is_minimum _ _ Hlo) as ((_ & Lx) & (_ & Ly) & (_ & Lz)).
  destruct (max_coords_is_maximum _ _ Hhi) as ((_ & Ux) & (_ & Uy) & (_ & Uz)).
  pose proof (Lx _ (in_map x _ _ Hp)). pose proof (Ux _ (in_map x _ _ Hp)).
  pose proof (Ly _ (in_map y _ _ Hp)). pose proof (Uy _ (in_map y _ _ Hp)).
  pose proof (Lz _ (in_map z _ _ Hp)). pose proof (Uz _ (in_map z _ _ Hp)).
  unfold veq. repeat split; lra.
Qed.

(** C6: when the largest extent of the box is 0, all gathered points
    coincide, the distance and the three camera offsets are 0, the plane's
    offset and scale factor are 0, and the camera block returns normally
    (nothing raised, no division by zero) with the camera at the centre. *)
Theorem C6_degenerate_box (tq : Vector -> Vector) (self : State) (lo hi : Vector) :
  min_coords (all_coords (imported_objects self)) = Ok lo ->
  max_coords (all_coords (imported_objects self)) = Ok hi ->
  max_extent (Smart.size lo hi) == 0 ->
  (forall p, In p (all_coords (imported_objects self)) -> veq p lo /\ veq p hi) /\
  exists d c cam,
    Smart.distance (Smart.size lo hi) = Ok d /\
    d == 0 /\ - d == 0 /\ d * 0.5 == 0 /\
    Smart.center lo hi = Ok c /\
    Smart.render_smart_preview_camera tq self
      = (mkState (imported_objects self) (reference_plane self) (Some cam)
           (log self), Ok tt) /\
    veq (location cam) c /\
    exists od sf,
      Smart.offset_distance (Smart.model_size lo hi) = Ok od /\ od == 0 /\
      Smart.scale_factor (Smart.model_size lo hi) = Ok sf /\ sf == 0.
Proof.
  intros Hlo Hhi H0. unfold Smart.size in H0. split.
  - now apply degenerate_points_coincide.
  - exists (max_extent (vsub hi lo) * 2), (midpoint lo hi). eexists.
    split; [unfold Smart.distance, Smart.size; now rewrite py_max_components|].
    split; [rewrite H0; lra|]. split; [rewrite H0; lra|]. split; [rewrite H0; lra|].
    split; [reflexivity|].
    split; [apply (smart_camera_runs tq self lo hi Hlo Hhi)|].
    split.
    + cbn [location]. unfold veq. cbn [vadd midpoint x y z].
      rewrite H0. repeat split; lra.
    + exists (max_extent (vsub hi lo) * 1.5), (max_extent (vsub hi lo) * 0.8).
      unfold Smart.offset_distance, Smart.scale_factor, Smart.model_size.
      rewrite py_max_components. cbn [bind_result].
      repeat split; rewrite H0; lra.
Qed.

(** The spec's single-point scenario: the point (5,5,5) gives a camera at
    (5,5,5), and the block returns normally. *)
Lemma C6_degenerate_box_witness :
  let self := scene_of [mkVector 5 5 5] in
  let p := mkVector 5 5 5 in
  (min_coords (all_coords (imported_objects self)) = Ok p /\
   max_coords (all_coords (imported_objects self)) = Ok p /\
   max_extent (Smart.size p p) == 0) /\
  exists cam,
    Smart.render_smart_preview_camera (fun v => v) self
      = (mkState (imported_objects self) (reference_plane self) (Some cam)
           (log self), Ok tt) /\
    veq (location cam) p.
Proof.
  cbv zeta.
  assert (Hlo : min_coords (all_coords (imported_objects (scene_of [mkVector 5 5 5])))
                = Ok (mkVector 5 5 5)) by (vm_compute; reflexivity).
  assert (Hhi : max_coords (all_coords (imported_objects (scene_of [mkVector 5 5 5])))
                = Ok (mkVector 5 5 5)) by (vm_compute; reflexivity).
  assert (H0 : max_extent (Smart.size (mkVector 5 5 5) (mkVector 5 5 5)) == 0)
    by (vm_compute; reflexivity).
  split; [repeat split; assumption|].
  destruct (C6_degenerate_box (fun v => v) (scene_of [mkVector 5 5 5])
              (mkVector 5 5 5) (mkVector 5 5 5) Hlo Hhi H0)
    as (_ & d & c & cam & _ & _ & _ & _ & Hc & Hrun & Hcam & _).
  exists cam. split; [exact Hrun|].
  injection Hc as <-. destruct Hcam as (Hx & Hy & Hz).
  repeat split; [rewrite Hx | rewrite Hy | rewrite Hz]; vm_compute; reflexivity.
Defined.

(** ** C8: determinism *)

(** C8: two runs on states with the same bounding box write the same
    values, whatever else the states hold (other objects, the plane and the
    camera as they were, the log): the same camera location and rotation,
    the same plane X, Z and scale.  Centre, size and distance are functions
    of the box alone. *)
Theorem C8_placement_deterministic
    (tq : Vector -> Vector) (self1 self2 : State) (lo hi : Vector) :
  min_coords (all_coords (imported_objects self1)) = Ok lo ->
  max_coords (all_coords (imported_objects self1)) = Ok hi ->
  min_coords (all_coords (imported_objects self2)) = Ok lo ->
  max_coords (all_coords (imported_objects self2)) = Ok hi ->
  (exists cam1 cam2,
     camera (fst (Smart.render_smart_preview_camera tq self1)) = Some cam1 /\
     camera (fst (Smart.render_smart_preview_camera tq self2)) = Some cam2 /\
     location cam1 = location cam2 /\
     rotation_euler cam1 = rotation_euler cam2 /\
     snd (Smart.render_smart_preview_camera tq self1)
       = snd (Smart.render_smart_preview_camera tq self2)) /\
  (forall plane1 plane2,
     reference_plane self1 = Some plane1 ->
     reference_plane self2 = Some plane2 ->
     (exists p1 p2,
        reference_plane (fst (Smart._position_reference_plane self1)) = Some p1 /\
        reference_plane (fst (Smart._position_reference_plane self2)) = Some p2 /\
        x (location p1) = x (location p2) /\
        z (location p1) = z (location p2) /\
        scale p1 = scale p2 /\
        snd (Smart._position_reference_plane self1)
          = snd (Smart._position_reference_plane self2)) /\
     (exists p1 p2,
        reference_plane (fst (Ubuntu._position_reference_plane self1)) = Some p1 /\
        reference_plane (fst (Ubuntu._position_reference_plane self2)) = Some p2 /\
        x (location p1) = x (location p2) /\
        z (location p1) = z (location p2) /\
        snd (Ubuntu._position_reference_plane self1)
          = snd (Ubuntu._position_reference_plane self2))).
Proof.
  intros Hlo1 Hhi1 Hlo2 Hhi2. split.
  - rewrite (smart_camera_runs tq self1 lo hi Hlo1 Hhi1).
    rewrite (smart_camera_runs tq self2 lo hi Hlo2 Hhi2).
    do 2 eexists. cbn [fst snd camera]. repeat split.
  - intros plane1 plane2 Hp1 Hp2. split.
    + rewrite (smart_plane_runs self1 plane1 lo hi Hp1 Hlo1 Hhi1).
      rewrite (smart_plane_runs self2 plane2 lo hi Hp2 Hlo2 Hhi2).
      do 2 eexists. cbn [fst snd reference_plane]. repeat split.
    + rewrite (ubuntu_plane_runs self1 plane1 lo hi Hp1 Hlo1 Hhi1).
      rewrite (ubuntu_plane_runs self2 plane2 lo hi Hp2 Hlo2 Hhi2).
      do 2 eexists. cbn [fst snd reference_plane]. repeat split.
Qed.

Lemma C8_placement_deterministic_witness :
  (min_coords (all_coords (imported_objects (scene_of scenario))) = Ok (mkVector 0 0 0) /\
   max_coords (all_coords (imported_objects (scene_of scenario))) = Ok (mkVector 2 0 4) /\
   min_coords (all_coords (imported_objects scene_other)) = Ok (mkVector 0 0 0) /\
   max_coords (all_coords (imported_objects scene_other)) = Ok (mkVector 2 0 4)) /\
  exists cam1 cam2,
    camera (fst (Smart.render_smart_preview_camera (fun v => v) (scene_of scenario)))
      = Some cam1 /\
    camera (fst (Smart.render_smart_preview_camera (fun v => v) scene_other))
      = Some cam2 /\
    location cam1 = location cam2 /\
    rotation_euler cam1 = rotation_euler cam2.
Proof.
  assert (H1 : min_coords (all_coords (imported_objects (scene_of scenario)))
               = Ok (mkVector 0 0 0)) by (vm_compute; reflexivity).
  assert (H2 : max_coords (all_coords (imported_objects (scene_of scenario)))
               = Ok (mkVector 2 0 4)) by (vm_compute; reflexivity).
  assert (H3 : min_coords (all_coords (imported_objects scene_other))
               = Ok (mkVector 0 0 0)) by (vm_compute; reflexivity).
  assert (H4 : max_coords (all_coords (imported_objects scene_other))
               = Ok (mkVector 2 0 4)) by (vm_compute; reflexivity).
  split; [repeat split; assumption|].
  destruct (C8_placement_deterministic (fun v => v) (scene_of scenario) scene_other
              (mkVector 0 0 0) (mkVector 2 0 4) H1 H2 H3 H4)
    as ((cam1 & cam2 & E1 & E2 & El & Er & _) & _).
  exists cam1, cam2. repeat split; assumption.
Defined.

(** ** C9: what positioning the plane leaves alone *)

Lemma same_but_x_z_scale_refl (p : Object) : same_but_x_z_scale p p.
Proof. repeat split. Qed.

(** C9: positioning the reference plane leaves its Y location as it was,
    and with it the plane's name, type, data, world matrix and rotation;
    the imported objects and the camera are untouched.  The Smart script
    writes X, Z and the scale; the Ubuntu script writes X and Z only. *)
Theorem C9_plane_y_unchanged (self : State) (plane : Object) :
  reference_plane self = Some plane ->
  (exists p,
     reference_plane (fst (Smart._position_reference_plane self)) = Some p /\
     same_but_x_z_scale plane p /\
     imported_objects (fst (Smart._position_reference_plane self))
       = imported_objects self /\
     camera (fst (Smart._position_reference_plane self)) = camera self) /\
  (exists p,
     reference_plane (fst (Ubuntu._position_reference_plane self)) = Some p /\
     same_but_x_z_scale plane p /\
     scale p = scale plane /\
     imported_objects (fst (Ubuntu._position_reference_plane self))
       = imported_objects self /\
     camera (fst (Ubuntu._position_reference_plane self)) = camera self /\
     log (fst (Ubuntu._position_reference_plane self)) = log self).
Proof.
  intros Hp.
  destruct (all_coords (imported_objects self)) as [|c cs] eqn:E.
  - rewrite (smart_plane_skips self E), (ubuntu_plane_skips self E).
    cbn [fst]. split; exists plane; repeat split; assumption.
  - assert (Hc : c :: cs <> []) by discriminate.
    destruct (min_coords_total _ Hc) as [lo Hlo].
    destruct (max_coords_total _ Hc) as [hi Hhi].
    rewrite <- E in Hlo, Hhi.
    rewrite (smart_plane_runs self plane lo hi Hp Hlo Hhi).
    rewrite (ubuntu_plane_runs self plane lo hi Hp Hlo Hhi).
    cbn [fst]. split; eexists; repeat split.
Qed.

Lemma C9_plane_y_unchanged_witness :
  reference_plane (scene_of scenario) = Some plane0 /\
  (exists p,
     reference_plane (fst (Smart._position_reference_plane (scene_of scenario)))
       = Some p /\
     y (location p) = y (location plane0) /\
     ~ x (location p) == x (location plane0)) /\
  (exists p,
     reference_plane (fst (Ubuntu._position_reference_plane (scene_of scenario)))
       = Some p /\
     y (location p) = y (location plane0) /\
     ~ x (location p) == x (location plane0)).
Proof.
  split; [reflexivity|].
  destruct (C9_plane_y_unchanged (scene_of scenario) plane0 eq_refl)
    as ((p & Hp & (_ & _ & _ & _ & Hy & _) & _) & (q & Hq & (_ & _ & _ & _ & Gy & _) & _)).
  split.
  - exists p. split; [exact Hp|]. split; [exact Hy|].
    vm_compute in Hp. injection Hp as <-. Qdecide.
  - exists q. split; [exact Hq|]. split; [exact Gy|].
    vm_compute in Hq. injection Hq as <-. Qdecide.
Defined.

(** ** C10: only mesh objects contribute *)

Lemma is_mesh_false (obj : Object) :
  type obj <> "MESH"%string -> is_mesh obj = false.
Proof. intros H. unfold is_mesh. now apply String.eqb_neq. Qed.

(** C10: the gathered sequence is made of the world coordinates of the
    vertices of the objects of type ['MESH'], in order, and of nothing else;
    when no object is of that type the sequence is empty and every method
    returns normally with the state it was given, as on any empty
    sequence. *)
Theorem C10_only_mesh_vertices (objs : list Object) :
  all_coords objs = flat_map world_coords (filter is_mesh objs) /\
  (Forall (fun obj => type obj <> "MESH"%string) objs ->
   all_coords objs = [] /\
   forall self,
     imported_objects self = objs ->
     Smart._position_reference_plane self = (self, Ok tt) /\
     Ubuntu._position_reference_plane self = (self, Ok tt) /\
     forall tq, Smart.render_smart_preview_camera tq self = (self, Ok tt)).
Proof.
  split; [apply all_coords_flat_map|].
  intros H.
  assert (E : all_coords objs = []).
  { apply all_coords_no_mesh. eapply Forall_impl; [|exact H].
    intros obj. apply is_mesh_false. }
  split; [exact E|].
  intros self <-. split; [|split].
  - now apply smart_plane_skips.
  - now apply ubuntu_plane_skips.
  - intros tq. now apply smart_camera_skips.
Qed.

Lemma C10_only_mesh_vertices_witness :
  let self := mkState no_mesh_objects (Some plane0) None [] in
  Forall (fun obj => type obj <> "MESH"%string) no_mesh_objects /\
  all_coords no_mesh_objects = [] /\
  Smart._position_reference_plane self = (self, Ok tt) /\
  Ubuntu._position_reference_plane self = (self, Ok tt).
Proof.
  cbv zeta.
  assert (H : Forall (fun obj => type obj <> "MESH"%string) no_mesh_objects)
    by (repeat constructor; discriminate).
  split; [exact H|].
  destruct (C10_only_mesh_vertices no_mesh_objects) as (_ & Hskip).
  destruct (Hskip H) as (E & Hrun).
  split; [exact E|].
  destruct (Hrun (mkState no_mesh_objects (Some plane0) None []) eq_refl)
    as (Hs & Hu & _).
  split; assumption.
Defined.

(** * Further properties of the bounds and of the placement *)

(** ** The box as a function of the gathered points *)

Lemma in_all_coords (objs : list Object) (p : Vector) :
  In p (all_coords objs) <->
  exists obj, In obj objs /\ type obj = "MESH"%string /\ In p (world_coords obj).
Proof.
  rewrite all_coords_flat_map, in_flat_map. split.
  - intros (obj & Hin & Hp). apply filter_In in Hin as (Hin & Hm).
    exists obj. repeat split; auto. now apply String.eqb_eq.
  - intros (obj & Hin & Hm & Hp). exists obj. split; [|exact Hp].
    apply filter_In. split; [exact Hin|]. now apply String.eqb_eq.
Qed.

Lemma bounds_incl (coords coords' : list Vector) (lo hi lo' hi' : Vector) :
  incl coords coords' ->
  min_coords coords = Ok lo -> max_coords coords = Ok hi ->
  min_coords coords' = Ok lo' -> max_coords coords' = Ok hi' ->
  (x lo' <= x lo /\ y lo' <= y lo /\ z lo' <= z lo) /\
  (x hi <= x hi' /\ y hi <= y hi' /\ z hi <= z hi').
Proof.
  intros Hi Hlo Hhi Hlo' Hhi'.
  destruct (min_coords_is_minimum _ _ Hlo) as ((Ix & _) & (Iy & _) & (Iz & _)).
  destruct (max_coords_is_maximum _ _ Hhi) as ((Jx & _) & (Jy & _) & (Jz & _)).
  destruct (min_coords_is_minimum _ _ Hlo') as ((_ & Lx) & (_ & Ly) & (_ & Lz)).
  destruct (max_coords_is_maximum _ _ Hhi') as ((_ & Ux) & (_ & Uy) & (_ & Uz)).
  pose proof (incl_map x Hi) as Mx.
  pose proof (incl_map y Hi) as My.
  pose proof (incl_map z Hi) as Mz.
  repeat split; auto.
Qed.

(** X1: gathering more points can only grow the box: when every point of
    one sequence occurs in another, the second box contains the first. *)
Theorem X1_box_grows_with_points
    (coords coords' : list Vector) (lo hi lo' hi' : Vector) :
  incl coords coords' ->
  min_coords coords = Ok lo -> max_coords coords = Ok hi ->
  min_coords coords' = Ok lo' -> max_coords coords' = Ok hi' ->
  in_box lo' hi' lo /\ in_box lo' hi' hi.
Proof.
  intros Hi Hlo Hhi Hlo' Hhi'.
  destruct (bounds_incl _ _ _ _ _ _ Hi Hlo Hhi Hlo' Hhi')
    as ((Lx & Ly & Lz) & (Ux & Uy & Uz)).
  destruct (bounds_ordered _ _ _ Hlo Hhi) as (Ox & Oy & Oz).
  unfold in_box. repeat split; try assumption; lra.
Qed.

Lemma X1_box_grows_with_points_witness :
  incl [mkVector 2 0 0] scenario /\
  in_box (mkVector 0 0 0) (mkVector 2 0 4) (mkVector 2 0 0).
Proof.
  assert (Hi : incl [mkVector 2 0 0] scenario)
    by (intros p [<-|[]]; simpl; auto).
  split; [exact Hi|].
  apply (X1_box_grows_with_points [mkVector 2 0 0] scenario
           (mkVector 2 0 0) (mkVector 2 0 0) (mkVector 0 0 0) (mkVector 2 0 4) Hi);
    reflexivity.
Defined.

(** X2: the box depends only on which mesh objects are imported, not on
    their order nor on repetitions: two object lists with the same members
    give numerically the same corners. *)
Theorem X2_box_independent_of_object_order
    (objs objs' : list Object) (lo hi lo' hi' : Vector) :
  (forall obj, In obj objs <-> In obj objs') ->
  min_coords (all_coords objs) = Ok lo -> max_coords (all_coords objs) = Ok hi ->
  min_coords (all_coords objs') = Ok lo' -> max_coords (all_coords objs') = Ok hi' ->
  veq lo lo' /\ veq hi hi'.
Proof.
  intros Hs Hlo Hhi Hlo' Hhi'.
  assert (I1 : incl (all_coords objs) (all_coords objs')).
  { intros p Hp. apply in_all_coords in Hp as (obj & Hin & Hm & Hp).
    apply in_all_coords. exists obj. repeat split; auto. now apply Hs. }
  assert (I2 : incl (all_coords objs') (all_coords objs)).
  { intros p Hp. apply in_all_coords in Hp as (obj & Hin & Hm & Hp).
    apply in_all_coords. exists obj. repeat split; auto. now apply Hs. }
  destruct (bounds_incl _ _ _ _ _ _ I1 Hlo Hhi Hlo' Hhi')
    as ((Lx & Ly & Lz) & (Ux & Uy & Uz)).
  destruct (bounds_incl _ _ _ _ _ _ I2 Hlo' Hhi' Hlo Hhi)
    as ((Lx' & Ly' & Lz') & (Ux' & Uy' & Uz')).
  unfold veq. repeat split; lra.
Qed.

Lemma X2_box_independent_of_object_order_witness :
  let a := mesh_of [mkVector 0 0 4; mkVector 1 0 1] in
  let b := mesh_of [mkVector 2 0 0; mkVector 0 0 0] in
  (forall obj, In obj [a; b] <-> In obj [b; a; b]) /\
  veq (mkVector 0 0 0) (mkVector 0 0 0) /\ veq (mkVector 2 0 4) (mkVector 2 0 4).
Proof.
  cbv zeta.
  assert (Hs : forall obj,
             In obj [mesh_of [mkVector 0 0 4; mkVector 1 0 1];
                     mesh_of [mkVector 2 0 0; mkVector 0 0 0]] <->
             In obj [mesh_of [mkVector 2 0 0; mkVector 0 0 0];
                     mesh_of [mkVector 0 0 4; mkVector 1 0 1];
                     mesh_of [mkVector 2 0 0; mkVector 0 0 0]]).
  { intros obj. simpl. tauto. }
  split; [exact Hs|].
  apply (X2_box_independent_of_object_order _ _
           (mkVector 0 0 0) (mkVector 2 0 4) (mkVector 0 0 0) (mkVector 2 0 4) Hs);
    vm_compute; reflexivity.
Defined.

(** ** Moving the model *)







(** ** Where the plane and the camera end up *)










(** ** How the methods compose *)

Lemma smart_camera_never_raises (tq : Vector -> Vector) (self : State) :
  snd (Smart.render_smart_preview_camera tq self) = Ok tt.
Proof.
  destruct (all_coords (imported_objects self)) as [|c cs] eqn:E.
  - now rewrite (smart_camera_skips tq self E).
  - assert (Hc : c :: cs <> []) by discriminate.
    destruct (min_coords_total _ Hc) as [lo Hlo].
    destruct (max_coords_total _ Hc) as [hi Hhi].
    rewrite <- E in Hlo, Hhi.
    now rewrite (smart_camera_runs tq self lo hi Hlo Hhi).
Qed.

(** X7: positioning the reference plane twice is the same as positioning it
    once: the second run of the Smart method leaves the plane where the
    first put it (it only logs again), and the second run of the Ubuntu
    method changes nothing at all. *)
Theorem X7_positioning_idempotent (self : State) :
  reference_plane
    (fst (Smart._position_reference_plane
            (fst (Smart._position_reference_plane self))))
    = reference_plane (fst (Smart._position_reference_plane self)) /\
  fst (Ubuntu._position_reference_plane
         (fst (Ubuntu._position_reference_plane self)))
    = fst (Ubuntu._position_reference_plane self).
Proof.
  destruct (all_coords (imported_objects self)) as [|c cs] eqn:E.
  - rewrite (smart_plane_skips self E), (ubuntu_plane_skips self E). cbn [fst].
    now rewrite (smart_plane_skips self E), (ubuntu_plane_skips self E).
  - assert (Hc : c :: cs <> []) by discriminate.
    destruct (min_coords_total _ Hc) as [lo Hlo].
    destruct (max_coords_total _ Hc) as [hi Hhi].
    rewrite <- E in Hlo, Hhi.
    destruct (reference_plane self) as [plane|] eqn:Hp.
    + rewrite (smart_plane_runs self plane lo hi Hp Hlo Hhi).
      rewrite (ubuntu_plane_runs self plane lo hi Hp Hlo Hhi). cbn [fst].
      split.
      * erewrite smart_plane_runs; [| reflexivity | exact Hlo | exact Hhi].
        reflexivity.
      * erewrite ubuntu_plane_runs; [| reflexivity | exact Hlo | exact Hhi].
        reflexivity.
    + assert (Hs : Smart._position_reference_plane self = (self, Ok tt))
        by (unfold Smart._position_reference_plane; now rewrite Hp).
      assert (Hu : Ubuntu._position_reference_plane self = (self, Ok tt))
        by (unfold Ubuntu._position_reference_plane; rewrite Hp;
            now rewrite orb_true_r).
      rewrite Hs, Hu. cbn [fst]. now rewrite Hs, Hu.
Qed.

(** X8: placing the camera and positioning the reference plane commute:
    either order leaves the same state.  The plane never influences the
    framing and the camera never influences the plane. *)
Theorem X8_plane_and_camera_commute (tq : Vector -> Vector) (self : State) :
  fst (Smart.render_smart_preview_camera tq
         (fst (Smart._position_reference_plane self)))
  = fst (Smart._position_reference_plane
           (fst (Smart.render_smart_preview_camera tq self))).
Proof.
  destruct (all_coords (imported_objects self)) as [|c cs] eqn:E.
  - rewrite (smart_plane_skips self E), (smart_camera_skips tq self E). cbn [fst].
    now rewrite (smart_plane_skips self E), (smart_camera_skips tq self E).
  - assert (Hc : c :: cs <> []) by discriminate.
    destruct (min_coords_total _ Hc) as [lo Hlo].
    destruct (max_coords_total _ Hc) as [hi Hhi].
    rewrite <- E in Hlo, Hhi.
    rewrite (smart_camera_runs tq self lo hi Hlo Hhi). cbn [fst].
    destruct (reference_plane self) as [plane|] eqn:Hp.
    + rewrite (smart_plane_runs self plane lo hi Hp Hlo Hhi). cbn [fst].
      erewrite smart_camera_runs; [| exact Hlo | exact Hhi].
      erewrite smart_plane_runs; [| reflexivity | exact Hlo | exact Hhi].
      reflexivity.
    + assert (Hs : Smart._position_reference_plane self = (self, Ok tt))
        by (unfold Smart._position_reference_plane; now rewrite Hp).
      rewrite Hs. cbn [fst].
      rewrite (smart_camera_runs tq self lo hi Hlo Hhi). cbn [fst].
      unfold Smart._position_reference_plane. cbn [reference_plane].
      now rewrite Hp.
Qed.

(** X9: [render_smart_preview] never raises, and its result tells whether
    the host's light-and-render part returned: [True] with an INFO record
    when it did, [False] with an ERROR record when it raised.  Placing the
    camera cannot make the preview fail. *)
Theorem X9_preview_result
    (tq : Vector -> Vector) (tail : M unit) (self : State) :
  let placed := fst (Smart.render_smart_preview_camera tq self) in
  Smart.render_smart_preview tq tail self =
    match snd (tail placed) with
    | Ok _ =>
        (fst (logger_info "Smart preview rendered" (fst (tail placed))), Ok true)
    | Raise _ =>
        (fst (logger_error "Smart preview render failed" (fst (tail placed))),
         Ok false)
    end.
Proof.
  cbv zeta. unfold Smart.render_smart_preview, try_except, bind.
  pose proof (smart_camera_never_raises tq self) as Hc.
  destruct (Smart.render_smart_preview_camera tq self) as [s1 r1].
  cbn [fst snd] in *. subst r1.
  destruct (tail s1) as [s2 [[]|e]]; reflexivity.
Qed.

(** * Keywords and prompts *)

(** ** The substring test *)

Lemma string_app_assoc (a b c : string) :
  ((a ++ b) ++ c)%string = (a ++ (b ++ c))%string.
Proof. induction a as [|ch a IH]; simpl; [reflexivity | now rewrite IH]. Qed.

Lemma prefix_app (word post : string) :
  String.prefix word (word ++ post)%string = true.
Proof.
  induction word as [|ch word IH]; simpl.
  - now destruct post.
  - destruct (Ascii.ascii_dec ch ch) as [_|N]; [exact IH | now elim N].
Qed.

Lemma prefix_split (word text : string) :
  String.prefix word text = true -> exists post, text = (word ++ post)%string.
Proof.
  revert text. induction word as [|ch word IH]; intros text H.
  - now exists text.
  - destruct text as [|ct text]; simpl in H; [discriminate|].
    destruct (Ascii.ascii_dec ch ct) as [->|_]; [|discriminate].
    destruct (IH text H) as [post ->]. now exists post.
Qed.

Lemma contains_prefix (word text : string) :
  String.prefix word text = true -> contains word text = true.
Proof. intros H. destruct text; cbn [contains]; now rewrite H. Qed.

Lemma contains_app (word pre post : string) :
  contains word (pre ++ word ++ post)%string = true.
Proof.
  induction pre as [|ch pre IH].
  - change ("" ++ word ++ post)%string with (word ++ post)%string.
    apply contains_prefix, prefix_app.
  - cbn [String.append contains].
    destruct (String.prefix word (String ch (pre ++ word ++ post))); auto.
Qed.

Lemma contains_split (word text : string) :
  contains word text = true ->
  exists pre post, text = (pre ++ word ++ post)%string.
Proof.
  induction text as [|ch text IH]; cbn [contains].
  - destruct (String.prefix word "") eqn:E; [|discriminate].
    intros _. destruct (prefix_split _ _ E) as [post ->]. now exists ""%string, post.
  - destruct (String.prefix word (String ch text)) eqn:E.
    + intros _. destruct (prefix_split _ _ E) as [post ->]. now exists ""%string, post.
    + intros H. destruct (IH H) as (pre & post & ->).
      now exists (String ch pre), post.
Qed.

(** A text that contains a word contains every part of that word. *)
Lemma contains_part (pre part post text : string) :
  contains (pre ++ part ++ post) text = true -> contains part text = true.
Proof.
  intros H. destruct (contains_split _ _ H) as (a & b & ->).
  replace (a ++ (pre ++ part ++ post) ++ b)%string
    with ((a ++ pre) ++ part ++ (post ++ b))%string.
  - apply contains_app.
  - now rewrite !string_app_assoc.
Qed.

(** ** The analysis of a prompt *)

Import SmartBlendAI.

(** X10: whatever the prompt, the analysis is well formed: either its type
    is ['sword'] with one of the four sword styles and a non-empty feature
    list, or its type is ['character'], ['building'] or ['generic'] with
    style ['basic'] and no feature; and its three proportions are positive,
    so no object is scaled flat. *)
Theorem X10_analysis_well_formed (prompt_lower : string) :
  let a := analysis prompt_lower in
  ((Analysis.type a = "sword"%string /\
    In (Analysis.style a) ["curved"; "short"; "large"; "standard"]%string /\
    Analysis.features a <> [])
   \/
   (In (Analysis.type a) ["character"; "building"; "generic"]%string /\
    Analysis.style a = "basic"%string /\
    Analysis.features a = [])) /\
  0 < Analysis.width (Analysis.proportions a) /\
  0 < Analysis.height (Analysis.proportions a) /\
  0 < Analysis.depth (Analysis.proportions a).
Proof.
  cbv zeta. unfold analysis.
  destruct (any_in _ prompt_lower).
  - destruct (contains "katana" prompt_lower);
      [|destruct (contains "dagger" prompt_lower);
        [|destruct (contains "greatsword" prompt_lower)]];
      (split; [left; cbn; repeat split; auto 6; discriminate
              | cbn; repeat split; Qpos]).
  - destruct (any_in _ prompt_lower);
      [|destruct (any_in _ prompt_lower)];
      (split; [right; cbn; repeat split; auto 6 | cbn; repeat split; Qpos]).
Qed.

Lemma greatsword_has_sword (text : string) :
  contains "greatsword" text = true -> contains "sword" text = true.
Proof.
  change "greatsword"%string with ("great" ++ "sword" ++ "")%string.
  apply contains_part.
Qed.

(** X11: the analysis has type ['sword'] exactly when the lowercased prompt
    contains one of sword, blade, katana, dagger; the fifth keyword of the
    list, greatsword, never decides, since it contains sword.  Matching is
    by substring, so the style is ['large'] exactly for a prompt containing
    greatsword and neither katana nor dagger. *)
Theorem X11_sword_keywords (prompt_lower : string) :
  (Analysis.type (analysis prompt_lower) = "sword"%string <->
   any_in ["sword"; "blade"; "katana"; "dagger"]%string prompt_lower = true) /\
  (Analysis.style (analysis prompt_lower) = "large"%string <->
   contains "greatsword" prompt_lower = true /\
   contains "katana" prompt_lower = false /\
   contains "dagger" prompt_lower = false).
Proof.
  unfold analysis, any_in. cbn [existsb].
  destruct (contains "sword" prompt_lower) eqn:Es;
  destruct (contains "blade" prompt_lower) eqn:Eb;
  destruct (contains "katana" prompt_lower) eqn:Ek;
  destruct (contains "dagger" prompt_lower) eqn:Ed;
  destruct (contains "greatsword" prompt_lower) eqn:Eg;
  try (apply greatsword_has_sword in Eg; congruence);
  cbn [orb];
  repeat match goal with
         | |- context [if ?c then _ else _] => destruct c
         end;
  cbn; repeat split; intros; try discriminate; try reflexivity;
  repeat match goal with H : _ /\ _ |- _ => destruct H end; try discriminate.
Qed.

(** ** The sword's parts *)



(** ** Material settings *)

(** X13: whatever the description, the values written to the Principled
    BSDF are valid inputs: every colour channel, the metallic and the
    roughness value lie in [0, 1], and the alpha channel is 1; the metallic
    value is 0.9 exactly when the description contains metal, steel, iron
    or sword, and 0 otherwise; Subsurface is written only for a non-metal. *)
Theorem X13_principled_in_range (desc_lower : string) :
  let p := principled desc_lower in
  let '(r, g, b, a) := base_color p in
  (0 <= r <= 1 /\ 0 <= g <= 1 /\ 0 <= b <= 1 /\ a == 1) /\
  0 <= roughness p <= 1 /\
  (if any_in ["metal"; "steel"; "iron"; "sword"]%string desc_lower
   then metallic p == 0.9 /\ subsurface p = None
   else metallic p == 0).
Proof.
  cbv zeta. unfold principled.
  repeat match goal with
         | |- context [if any_in ?l desc_lower then _ else _] =>
             destruct (any_in l desc_lower)
         end;
  cbn; repeat split; Qpos.
Qed.

(** * Generation *)

Section GenerationProperties.

Variable lower : string -> string.
Variable path_exists : string -> bool.
Variables human creature building generic : string -> MS string.
Variable guided_sword : string -> Analysis.t -> MS string.
Variable reference_material : string -> result unit.

Let procedural := _generate_with_procedural lower human creature building generic.

(** X14: for a prompt whose lowercase form contains sword, blade or weapon,
    [_generate_with_procedural] logs its INFO record and raises
    [AttributeError], since the class has no [_create_procedural_sword]:
    no builder runs and the scene is not touched. *)
Theorem X14_procedural_sword_raises (prompt model_type : string) (self : Self) :
  any_in ["sword"; "blade"; "weapon"]%string (lower prompt) = true ->
  procedural prompt model_type self =
    (mkSelf (mkState (imported_objects (state self)) (reference_plane (state self))
                     (camera (state self))
                     (log (state self)
                        ++ [(INFO, "Generating procedural model for"%string)]))
            (reference_image_path self) (warnings self),
     Raise AttributeError).
Proof.
  intros H. unfold procedural, _generate_with_procedural.
  unfold bindS at 1. cbn [liftM logger_info]. now rewrite H.
Qed.

Lemma human_has_man (text : string) :
  contains "human" text = true -> contains "man" text = true.
Proof.
  change "human"%string with ("hu" ++ "man" ++ "")%string. apply contains_part.
Qed.

Lemma woman_has_man (text : string) :
  contains "woman" text = true -> contains "man" text = true.
Proof.
  change "woman"%string with ("wo" ++ "man" ++ "")%string. apply contains_part.
Qed.

(** X15: [_generate_with_procedural] matches keywords as substrings: a
    prompt whose lowercase form contains "man" anywhere, and none of sword,
    blade, weapon, is built by the human builder, whatever creature or
    building words it also contains; the keywords human and woman never
    decide, since both contain man. *)
Theorem X15_procedural_man_substring (prompt model_type : string) :
  any_in ["sword"; "blade"; "weapon"]%string (lower prompt) = false ->
  contains "man" (lower prompt) = true ->
  procedural prompt model_type =
    (liftM (logger_info "Generating procedural model for") ;;~
     r <~ human prompt ;; retS (Some r)) /\
  forall text,
    any_in ["human"; "person"; "character"; "man"; "woman"]%string text
    = any_in ["person"; "character"; "man"]%string text.
Proof.
  intros Hs Hm. split.
  - unfold procedural, _generate_with_procedural. rewrite Hs.
    unfold any_in at 1. cbn [existsb]. rewrite Hm, !orb_true_r. reflexivity.
  - intros text. unfold any_in. cbn [existsb].
    destruct (contains "human" text) eqn:Eh;
    destruct (contains "woman" text) eqn:Ew;
    destruct (contains "man" text) eqn:Em;
    try (apply human_has_man in Eh; congruence);
    try (apply woman_has_man in Ew; congruence);
    destruct (contains "person" text), (contains "character" text); reflexivity.
Qed.

End GenerationProperties.

Lemma X14_procedural_sword_raises_witness :
  any_in ["sword"; "blade"; "weapon"]%string (ascii_lower "Iron Sword") = true /\
  snd (_generate_with_procedural ascii_lower
         (sample_builder "human.fbx") (sample_builder "creature.fbx")
         (sample_builder "building.fbx") (sample_builder "object.fbx")
         "Iron Sword" "auto" fresh_self)
    = Raise AttributeError.
Proof.
  split; [reflexivity|].
  rewrite (X14_procedural_sword_raises ascii_lower
             (sample_builder "human.fbx") (sample_builder "creature.fbx")
             (sample_builder "building.fbx") (sample_builder "object.fbx")
             "Iron Sword" "auto" fresh_self eq_refl).
  reflexivity.
Defined.

(** "Roman mansion" names a building and is built as a human. *)
Lemma X15_procedural_man_substring_witness :
  (any_in ["sword"; "blade"; "weapon"]%string (ascii_lower "Roman mansion") = false /\
   contains "man" (ascii_lower "Roman mansion") = true) /\
  snd (_generate_with_procedural ascii_lower
         (sample_builder "human.fbx") (sample_builder "creature.fbx")
         (sample_builder "building.fbx") (sample_builder "object.fbx")
         "Roman mansion" "auto" fresh_self)
    = Ok (Some "human.fbx"%string).
Proof.
  split; [split; reflexivity|].
  destruct (X15_procedural_man_substring ascii_lower
              (sample_builder "human.fbx") (sample_builder "creature.fbx")
              (sample_builder "building.fbx") (sample_builder "object.fbx")
              "Roman mansion" "auto" eq_refl eq_refl) as [E _].
  rewrite E. reflexivity.
Defined.

Section ReferenceImage.

Variable path_exists : string -> bool.
Variable reference_material : string -> result unit.

Let setup := _setup_reference_image path_exists reference_material.



(** X17: when the material block raises (the image cannot be loaded, say),
    [_setup_reference_image] returns [False] after an ERROR record, and the
    plane it had just created stays referenced by [self.reference_plane],
    unpositioned at (5, 0, 0) with scale 1: the failure is not undone. *)
Theorem X17_setup_reference_image_failure_keeps_plane
    (self : Self) (path : string) (e : exn) :
  reference_image_path self = Some path ->
  path_exists path = true ->
  reference_material path = Raise e ->
  setup self =
    (mkSelf
       (mkState (imported_objects (state self))
          (Some (set_name (primitive_plane_add 3 (mkVector 5 0 0)) "Reference_Image"))
          (camera (state self))
          (log (state self)
             ++ [(INFO, "Setting up reference image"%string)]
             ++ [(ERROR, "Failed to setup reference image"%string)]))
       (Some path) (warnings self),
     Ok false).
Proof.
  intros Hpath Hex Hmat.
  unfold setup, _setup_reference_image. rewrite Hpath, Hex. cbn [negb].
  unfold try_exceptS, bindS, liftR, set_reference_plane. rewrite Hmat.
  cbn. rewrite ?Hpath, <- !app_assoc. reflexivity.
Qed.

End ReferenceImage.


Lemma X17_setup_reference_image_failure_keeps_plane_witness :
  reference_image_path self_with_model = Some "ref.png"%string /\
  snd (_setup_reference_image (fun _ => true) (fun _ => Raise ValueError)
         self_with_model) = Ok false /\
  reference_plane
    (state (fst (_setup_reference_image (fun _ => true) (fun _ => Raise ValueError)
                   self_with_model)))
    = Some (set_name (primitive_plane_add 3 (mkVector 5 0 0)) "Reference_Image").
Proof.
  split; [reflexivity|].
  rewrite (X17_setup_reference_image_failure_keeps_plane
             (fun _ => true) (fun _ => Raise ValueError)
             self_with_model "ref.png" ValueError eq_refl eq_refl eq_refl).
  split; reflexivity.
Defined.

Section GenerateModel.

Variable lower : string -> string.
Variable path_exists : string -> bool.
Variables human creature building generic : string -> MS string.
Variable guided_sword : string -> Analysis.t -> MS string.
Variable reference_material : string -> result unit.

Let setup := _setup_reference_image path_exists reference_material.
Let generate :=
  generate_model_from_text lower path_exists human creature building generic
                           guided_sword reference_material.





End GenerateModel.

Section SwordFallback.

Variable lower : string -> string.
Variable path_exists : string -> bool.
Variables human creature building generic : string -> MS string.
Variable guided_sword : string -> Analysis.t -> MS string.
Variable reference_material : string -> result unit.

Let generate :=
  generate_model_from_text lower path_exists human creature building generic
                           guided_sword reference_material.

(** X19: without a reference image, a prompt whose lowercase form contains
    sword, blade or weapon is not built as a sword: the reference method
    returns [None], the procedural method raises and a warning is logged,
    and the model returned is the one the generic-object builder makes,
    run with that one warning logged. *)
Theorem X19_sword_without_reference_is_generic
    (prompt model_type : string) (self built : Self) (path : string) :
  reference_image_path self = None ->
  any_in ["sword"; "blade"; "weapon"]%string (lower prompt) = true ->
  generic prompt
    (mkSelf
       (mkState (imported_objects (state self)) (reference_plane (state self))
          (camera (state self))
          (log (state self)
             ++ [(INFO, "Generating 3D model from prompt"%string)]
             ++ [(INFO, "Generating procedural model for"%string)]
             ++ [(INFO, "Using basic primitive generation as fallback"%string)]))
       None (warnings self ++ ["Method failed"%string]))
    = (built, Ok path) ->
  path <> ""%string ->
  reference_image_path built = None ->
  generate prompt model_type None self =
    (mkSelf
       (mkState (imported_objects (state built)) (reference_plane (state built))
          (camera (state built))
          (log (state built)
             ++ [(INFO, "Successfully generated model using"%string)]))
       None (warnings built),
     Ok (Some path)).
Proof.
  intros Hnone Hsword Hgen Hpath Hbuilt.
  unfold generate, generate_model_from_text.
  cbn [try_methods].
  unfold _generate_with_reference_analysis, _generate_with_procedural,
    _generate_basic_primitive.
  unfold bindS, liftM, retS, raiseS, logger_warning, logger_info.
  cbn [state reference_image_path warnings imported_objects reference_plane
       camera log].
  rewrite Hnone, Hsword.
  cbn [truthy_opt_str state reference_image_path warnings imported_objects
       reference_plane camera log].
  rewrite <- !app_assoc. cbn [app].
  cbn [app] in Hgen. rewrite Hgen.
  assert (T : truthy_str path = true).
  { unfold truthy_str. apply String.eqb_neq in Hpath. now rewrite Hpath. }
  cbn [truthy_opt_str]. rewrite T.
  cbn [state reference_image_path warnings imported_objects reference_plane
       camera log].
  rewrite Hbuilt. reflexivity.
Qed.

End SwordFallback.

Lemma X19_sword_without_reference_is_generic_witness :
  (reference_image_path fresh_self = None /\
   any_in ["sword"; "blade"; "weapon"]%string (ascii_lower "Flaming SWORD") = true) /\
  snd (generate_model_from_text ascii_lower (fun _ => true)
         (sample_builder "human.fbx") (sample_builder "creature.fbx")
         (sample_builder "building.fbx") (sample_builder "object.fbx")
         (sample_sword_builder "sword.fbx") (fun _ => Ok tt)
         "Flaming SWORD" "auto" None fresh_self)
    = Ok (Some "object.fbx"%string).
Proof.
  split; [split; reflexivity|].
  erewrite (X19_sword_without_reference_is_generic ascii_lower (fun _ => true)
              (sample_builder "human.fbx") (sample_builder "creature.fbx")
              (sample_builder "building.fbx") (sample_builder "object.fbx")
              (sample_sword_builder "sword.fbx") (fun _ => Ok tt)
              "Flaming SWORD" "auto" fresh_self _ "object.fbx"
              eq_refl eq_refl eq_refl);
    [reflexivity | discriminate | reflexivity].
Defined.

(** * The Ubuntu script's reference image *)

Section UbuntuReference.
Import BlendAISetup.

Variable import_image_available : bool.
Variable to_plane : result (list Object).
Variable reference_material : result unit.

Let manual := _create_reference_plane_manually reference_material.
Let setup := setup_reference_image import_image_available to_plane reference_material.

Lemma ubuntu_position_lifted (self : Self) (plane : Object) (lo hi : Vector) :
  reference_plane (state self) = Some plane ->
  min_coords (all_coords (imported_objects (state self))) = Ok lo ->
  max_coords (all_coords (imported_objects (state self))) = Ok hi ->
  exists self',
    liftM Ubuntu._position_reference_plane self = (self', Ok tt) /\
    imported_objects (state self') = imported_objects (state self) /\
    ubuntu_positioned lo hi self'.
Proof.
  intros Hp Hlo Hhi. unfold liftM.
  rewrite (ubuntu_plane_runs (state self) plane lo hi Hp Hlo Hhi).
  eexists. split; [reflexivity|]. split; [reflexivity|].
  eexists. cbn [state reference_plane]. split; [reflexivity|].
  cbn [location x y z midpoint]. split; reflexivity.
Qed.

Lemma manual_outcome (self : Self) (lo hi : Vector) :
  min_coords (all_coords (imported_objects (state self))) = Ok lo ->
  max_coords (all_coords (imported_objects (state self))) = Ok hi ->
  exists b, snd (manual self) = Ok b /\
            (b = true -> ubuntu_positioned lo hi (fst (manual self))).
Proof.
  intros Hlo Hhi.
  remember (manual self) as out eqn:Hout.
  unfold manual, _create_reference_plane_manually in Hout.
  unfold try_exceptS in Hout. unfold bindS at 1 in Hout.
  cbn [set_reference_plane liftM] in Hout.
  unfold bindS at 1 in Hout. unfold liftR at 1 in Hout.
  destruct reference_material as [[]|e].
  - unfold bindS at 1 in Hout.
    match type of Hout with
    | context [liftM Ubuntu._position_reference_plane ?s] =>
        destruct (ubuntu_position_lifted s _ lo hi eq_refl Hlo Hhi)
          as (s' & Hrun & _ & (p & Hp & Hx & Hz))
    end.
    rewrite Hrun in Hout. cbn in Hout. subst out.
    exists true. split; [reflexivity|].
    intros _. exists p. cbn [fst state reference_plane]. auto.
  - cbn in Hout. subst out. exists false. split; [reflexivity | discriminate].
Qed.

(** X20: with a model that has a bounding box, [setup_reference_image]
    never raises, and whenever it returns [True] the plane referenced by
    [self.reference_plane] has been positioned for that box, at
    max.x + (max.x - min.x) * 0.5 on X and centre.z on Z, whether the plane
    came from the importer or was created manually. *)
Theorem X20_ubuntu_setup_true_means_positioned (self : Self) (lo hi : Vector) :
  min_coords (all_coords (imported_objects (state self))) = Ok lo ->
  max_coords (all_coords (imported_objects (state self))) = Ok hi ->
  exists b, snd (setup self) = Ok b /\
            (b = true -> ubuntu_positioned lo hi (fst (setup self))).
Proof.
  intros Hlo Hhi.
  remember (setup self) as out eqn:Hout.
  unfold setup, setup_reference_image, try_exceptS in Hout.
  destruct import_image_available; cbn [negb] in Hout.
  - unfold bindS at 1, liftR at 1 in Hout.
    destruct to_plane as [[|plane rest]|e].
    + cbn in Hout. subst out. exists false. split; [reflexivity | discriminate].
    + unfold bindS at 1 in Hout. cbn [set_reference_plane liftM] in Hout.
      unfold bindS at 1 in Hout.
      match type of Hout with
      | context [liftM Ubuntu._position_reference_plane ?s] =>
          destruct (ubuntu_position_lifted s _ lo hi eq_refl Hlo Hhi)
            as (s' & Hrun & _ & (p & Hp & Hx & Hz))
      end.
      rewrite Hrun in Hout. cbn in Hout. subst out.
      exists true. split; [reflexivity|]. intros _.
      exists p. cbn [fst state reference_plane]. auto.
    + unfold bindS in Hout. cbn [liftM logger_error] in Hout.
      match type of Hout with
      | _ = _create_reference_plane_manually _ ?s =>
          destruct (manual_outcome s lo hi Hlo Hhi) as (b & Hb & Hpos)
      end.
      subst out. exists b. split; assumption.
  - unfold bindS at 1 in Hout. cbn [logger_warning] in Hout.
    match type of Hout with
    | context [_create_reference_plane_manually _ ?s] =>
        destruct (manual_outcome s lo hi Hlo Hhi) as (b & Hb & Hpos);
        fold manual in Hout;
        destruct (manual s) as [s' [b'|e]] eqn:Hm
    end; cbn [snd fst] in *; [|discriminate].
    subst out. exists b'. split; [reflexivity|].
    intros ->. apply Hpos. congruence.
Qed.

(** X21: when the importer runs and adds no object, [setup_reference_image]
    logs an ERROR record and returns [False] without creating a plane:
    the manual fallback runs only when the importer is missing or raises. *)
Theorem X21_ubuntu_empty_import_has_no_fallback (self : Self) :
  import_image_available = true ->
  to_plane = Ok [] ->
  setup self =
    (mkSelf
       (mkState (imported_objects (state self)) (reference_plane (state self))
          (camera (state self))
          (log (state self) ++ [(ERROR, "Failed to import reference image"%string)]))
       (reference_image_path self) (warnings self),
     Ok false).
Proof.
  intros Ha Ht. unfold setup, setup_reference_image, try_exceptS.
  rewrite Ha, Ht. reflexivity.
Qed.

End UbuntuReference.

Lemma X20_ubuntu_setup_true_means_positioned_witness :
  (min_coords (all_coords (imported_objects (state self_with_model)))
     = Ok (mkVector 0 0 0) /\
   max_coords (all_coords (imported_objects (state self_with_model)))
     = Ok (mkVector 2 0 4)) /\
  snd (BlendAISetup.setup_reference_image true (Raise ValueError) (Ok tt)
         self_with_model) = Ok true /\
  ubuntu_positioned (mkVector 0 0 0) (mkVector 2 0 4)
    (fst (BlendAISetup.setup_reference_image true (Raise ValueError) (Ok tt)
            self_with_model)).
Proof.
  assert (H1 : min_coords (all_coords (imported_objects (state self_with_model)))
               = Ok (mkVector 0 0 0)) by (vm_compute; reflexivity).
  assert (H2 : max_coords (all_coords (imported_objects (state self_with_model)))
               = Ok (mkVector 2 0 4)) by (vm_compute; reflexivity).
  split; [split; assumption|].
  destruct (X20_ubuntu_setup_true_means_positioned true (Raise ValueError) (Ok tt)
              self_with_model _ _ H1 H2) as (b & Hb & Hpos).
  assert (Hrun : snd (BlendAISetup.setup_reference_image true (Raise ValueError)
                        (Ok tt) self_with_model) = Ok true)
    by (vm_compute; reflexivity).
  split; [exact Hrun|].
  apply Hpos. rewrite Hrun in Hb. now injection Hb.
Defined.

Lemma X21_ubuntu_empty_import_has_no_fallback_witness :
  snd (BlendAISetup.setup_reference_image true (Ok []) (Ok tt) self_with_model)
    = Ok false /\
  reference_plane
    (state (fst (BlendAISetup.setup_reference_image true (Ok []) (Ok tt)
                   self_with_model))) = None.
Proof.
  rewrite (X21_ubuntu_empty_import_has_no_fallback true (Ok []) (Ok tt)
             self_with_model eq_refl eq_refl).
  split; reflexivity.
Defined.

(** * The Smart pipeline *)

Section PipelineProperties.
Import SmartPipeline.

Variable lower : string -> string.
Variable path_exists : string -> bool.
Variables human creature building generic : string -> MS string.
Variable guided_sword : string -> Analysis.t -> MS string.
Variable reference_material : string -> result unit.
Variable new_material : string -> Principled -> result unit.
Variable save_as_mainfile : string -> result unit.
Variable to_track_quat_to_euler : Vector -> Vector.
Variable light_and_render : M unit.

Let apply_loop := apply_smart_materials_loop lower new_material.

Lemma apply_loop_ok (description : string) (objs : list Object) :
  (forall n p, new_material n p = Ok tt) ->
  forall self,
    apply_loop objs description self =
      (mkSelf
         (mkState (imported_objects (state self)) (reference_plane (state self))
            (camera (state self))
            (log (state self)
               ++ flat_map (fun _ => [(INFO, "Creating smart material"%string);
                                      (INFO, "Applied smart material to"%string)])
                    (filter is_mesh objs)))
         (reference_image_path self) (warnings self),
       Ok tt).
Proof.
  intros Hnew. unfold apply_loop.
  induction objs as [|obj rest IH]; intros self.
  - cbn. rewrite app_nil_r. now destruct self as [[] ? ?].
  - cbn [apply_smart_materials_loop filter]. unfold bindS at 1.
    destruct (is_mesh obj).
    + unfold create_smart_material, bindS, liftR. cbn [liftM logger_info].
      rewrite Hnew. rewrite IH. cbn [state reference_image_path warnings
        imported_objects reference_plane camera log flat_map].
      rewrite <- !app_assoc. reflexivity.
    + cbn [retS]. apply IH.
Qed.

(** X22: when the host builds every material, [apply_smart_materials] logs
    two INFO records for each imported object of type ['MESH'], in order,
    skips every other object, and changes nothing else of the state. *)
Theorem X22_apply_smart_materials_per_mesh (description : string) (self : Self) :
  (forall n p, new_material n p = Ok tt) ->
  apply_smart_materials lower new_material description self =
    (mkSelf
       (mkState (imported_objects (state self)) (reference_plane (state self))
          (camera (state self))
          (log (state self)
             ++ flat_map (fun _ => [(INFO, "Creating smart material"%string);
                                    (INFO, "Applied smart material to"%string)])
                  (filter is_mesh (imported_objects (state self)))))
       (reference_image_path self) (warnings self),
     Ok tt).
Proof.
  intros Hnew. unfold apply_smart_materials. now apply apply_loop_ok.
Qed.

End PipelineProperties.

Lemma X22_apply_smart_materials_per_mesh_witness :
  (forall (n : string) (p : Principled), (fun _ _ => Ok tt) n p = Ok tt) /\
  log (state (fst (SmartPipeline.apply_smart_materials ascii_lower
                     (fun _ _ => Ok tt) "rusty"
                     (mkSelf (mkState (mesh_of scenario :: no_mesh_objects)
                                None None []) None []))))
    = [(INFO, "Creating smart material"%string);
       (INFO, "Applied smart material to"%string)].
Proof.
  split; [reflexivity|].
  rewrite (X22_apply_smart_materials_per_mesh ascii_lower (fun _ _ => Ok tt) "rusty"
             (mkSelf (mkState (mesh_of scenario :: no_mesh_objects) None None [])
                     None [])
             (fun _ _ => eq_refl)).
  reflexivity.
Defined.

Lemma bindS_snd_ext {A B : Type} (m : MS A) (k1 k2 : A -> MS B) :
  (forall a s, snd (k1 a s) = snd (k2 a s)) ->
  forall s, snd (bindS m k1 s) = snd (bindS m k2 s).
Proof.
  intros H s. unfold bindS. destruct (m s) as [s' [a|e]]; [apply H | reflexivity].
Qed.

Lemma preview_then_done
    (tq : Vector -> Vector) (tail : M unit) (self : Self) :
  snd ((_ <~ liftM (Smart.render_smart_preview tq tail) ;;
        liftM (logger_info "Smart generation pipeline completed successfully!") ;;~
        retS true) self) = Ok true.
Proof.
  unfold bindS at 1. unfold liftM at 1.
  destruct (render_smart_preview_never_raises tq tail (state self)) as [b Hb].
  destruct (Smart.render_smart_preview tq tail (state self)) as [s' r].
  cbn [snd] in Hb. subst r. reflexivity.
Qed.

(** X23: the value [generate_and_process] returns (or the exception it
    raises) does not depend on the preview render: with a failing render
    and with a succeeding one the outcome is the same, since the result of
    [render_smart_preview] is dropped. *)
Theorem X23_pipeline_result_ignores_preview
    (lower : string -> string) (path_exists : string -> bool)
    (human creature building generic : string -> MS string)
    (guided_sword : string -> Analysis.t -> MS string)
    (reference_material : string -> result unit)
    (new_material : string -> Principled -> result unit)
    (save_as_mainfile : string -> result unit)
    (tq1 tq2 : Vector -> Vector) (render1 render2 : M unit)
    (prompt description : string) (reference_image : option string)
    (self : Self) :
  snd (SmartPipeline.generate_and_process lower path_exists human creature
         building generic guided_sword reference_material new_material
         save_as_mainfile tq1 render1 prompt description reference_image self)
  = snd (SmartPipeline.generate_and_process lower path_exists human creature
           building generic guided_sword reference_material new_material
           save_as_mainfile tq2 render2 prompt description reference_image self).
Proof.
  unfold SmartPipeline.generate_and_process.
  apply bindS_snd_ext. intros _ s1.
  apply bindS_snd_ext. intros _ s2.
  apply bindS_snd_ext. intros model_path s3.
  destruct (negb (truthy_opt_str model_path)); [reflexivity|].
  apply bindS_snd_ext. intros _ s4.
  apply bindS_snd_ext. intros _ s5.
  now rewrite !preview_then_done.
Qed.

(** * The sword's modifiers *)

